(** * dji-pano-stitcher: a shallow embedding of the orchestration script

    The script [dji-pano-stitcher.py] locates or downloads external tools and
    runs them in a fixed order over files in [temp/] and [output/].  The
    embedding keeps the script's control flow and makes its environment
    explicit: the file system is a finite listing of paths, the external
    programs and the network are oracles, and every observable action
    (printed line, tool lookup, download, process invocation) is appended to
    a trace. *)

From Stdlib Require Import String Ascii DecimalString List Bool Arith ZArith QArith Qminmax.
From Stdlib Require Import Lia Lqa.
Import ListNotations.

Local Open Scope string_scope.
Local Open Scope list_scope.

(** ** Strings *)

Module Str.

(** [sub in s], Python's substring test. *)
Fixpoint contains (sub s : string) : bool :=
  String.prefix sub s ||
  match s with
  | EmptyString => false
  | String _ s' => contains sub s'
  end.

(** [s.endswith(suf)] *)
Definition ends_with (suf s : string) : bool :=
  let n := String.length s in
  let m := String.length suf in
  (m <=? n)%nat && String.eqb (substring (n - m) m s) suf.

(** [s.rfind(c)] for a one-character [c]. *)
Fixpoint rindex (c : ascii) (s : string) : option nat :=
  match s with
  | EmptyString => None
  | String a s' =>
      match rindex c s' with
      | Some i => Some (S i)
      | None => if Ascii.eqb a c then Some 0%nat else None
      end
  end.

Fixpoint after_last_aux (c : ascii) (s acc : string) : string :=
  match s with
  | EmptyString => acc
  | String a s' =>
      if Ascii.eqb a c then after_last_aux c s' s' else after_last_aux c s' acc
  end.

(** The part of [s] after the last [c]; all of [s] when there is none. *)
Definition after_last (c : ascii) (s : string) : string := after_last_aux c s s.

Definition nl : string := String (ascii_of_nat 10) EmptyString.

End Str.

(** ** Paths

    A [pathlib.Path] is kept as its list of components; [Path(s)], [str(p)]
    and [os.fspath] are the identity on this representation, and [p / x]
    appends a component.  The empty list is the working directory. *)

Definition path := list string.

Module PathOps.

Fixpoint eqb (p q : path) : bool :=
  match p, q with
  | [], [] => true
  | x :: p', y :: q' => String.eqb x y && eqb p' q'
  | _, _ => false
  end.

(** [d] is [p] or an ancestor of [p]. *)
Fixpoint is_prefix (d p : path) : bool :=
  match d, p with
  | [], _ => true
  | x :: d', y :: p' => String.eqb x y && is_prefix d' p'
  | _ :: _, [] => false
  end.

Definition div (p : path) (x : string) : path := p ++ [x].

(** [p.parent] and [p.name] *)
Definition parent (p : path) : path := removelast p.
Definition name (p : path) : string := last p "".

(** [PurePath.suffix] and [PurePath.stem] of a final component. *)
Definition dot_split (n : string) : option nat :=
  match Str.rindex "." n with
  | Some i => if (0 <? i)%nat && (i <? String.length n - 1)%nat then Some i else None
  | None => None
  end.

Definition suffix_of (n : string) : string :=
  match dot_split n with
  | Some i => substring i (String.length n - i) n
  | None => ""
  end.

Definition stem_of (n : string) : string :=
  match dot_split n with
  | Some i => substring 0 i n
  | None => n
  end.

Definition suffix (p : path) : string := suffix_of (name p).
Definition stem (p : path) : string := stem_of (name p).

(** [Path(url).name]: the text after the last slash. *)
Definition url_name (url : string) : string := Str.after_last "/" url.

(** Proper ancestors of [p], nearest to the root first, without the
    working directory itself. *)
Fixpoint ancestors_from (acc p : path) : list path :=
  match p with
  | [] => []
  | [_] => []
  | x :: p' => (acc ++ [x]) :: ancestors_from (acc ++ [x]) p'
  end.

Definition ancestors (p : path) : list path := ancestors_from [] p.

End PathOps.

Infix "//" := PathOps.div (at level 40, left associativity).

(** ** Errors and results *)

Inductive error : Type :=
| SystemExit (code : Z)          (* [sys.exit(code)] *)
| Uncaught (exn : string).       (* an exception nobody catches *)

Inductive result (A : Type) : Type :=
| Ok (a : A)
| Err (e : error).

Arguments Ok {A} a.
Arguments Err {A} e.

(** Either way of ending early leaves the interpreter with status 1. *)
Definition exit_status {A} (r : result A) : Z :=
  match r with
  | Ok _ => 0
  | Err (SystemExit c) => c
  | Err (Uncaught _) => 1
  end.

Definition succeeded {A} (r : result A) : bool :=
  match r with Ok _ => true | Err _ => false end.

(** ** The file system *)

Inductive node : Type :=
| File (executable : bool)
| Dir.

(** Entries in the order in which the operating system enumerates them. *)
Definition FS := list (path * node).

Module Fs.

Definition kind_of (fs : FS) (p : path) : option node :=
  match p with
  | [] => Some Dir
  | _ => option_map snd (find (fun e => PathOps.eqb (fst e) p) fs)
  end.

Definition exists_ (fs : FS) (p : path) : bool :=
  match kind_of fs p with Some _ => true | None => false end.

Definition is_dir (fs : FS) (p : path) : bool :=
  match kind_of fs p with Some Dir => true | _ => false end.

Definition is_file (fs : FS) (p : path) : bool :=
  match kind_of fs p with Some (File _) => true | _ => false end.

Definition is_exec_file (fs : FS) (p : path) : bool :=
  match kind_of fs p with Some (File true) => true | _ => false end.

Fixpoint put (p : path) (n : node) (fs : FS) : FS :=
  match fs with
  | [] => [(p, n)]
  | (q, m) :: r => if PathOps.eqb q p then (p, n) :: r else (q, m) :: put p n r
  end.

Definition remove (p : path) (fs : FS) : FS :=
  filter (fun e => negb (PathOps.eqb (fst e) p)) fs.

Definition child_of (d q : path) : bool :=
  match q with
  | [] => false
  | _ => PathOps.eqb (PathOps.parent q) d
  end.

Definition below (d q : path) : bool :=
  PathOps.is_prefix d q && negb (PathOps.eqb d q).

(** [os.mkdir(p)] *)
Definition mkdir1 (p : path) (fs : FS) : result FS :=
  if exists_ fs p then Err (Uncaught "FileExistsError")
  else if is_dir fs (PathOps.parent p) then Ok (put p Dir fs)
  else if exists_ fs (PathOps.parent p) then Err (Uncaught "NotADirectoryError")
  else Err (Uncaught "FileNotFoundError").

(** One missing ancestor on the way of [mkdir(parents=True)]. *)
Definition mkdir_ancestor (acc : result FS) (q : path) : result FS :=
  match acc with
  | Err e => Err e
  | Ok fs =>
      if is_dir fs q then Ok fs
      else if exists_ fs q then Err (Uncaught "NotADirectoryError")
      else Ok (put q Dir fs)
  end.

(** [Path.mkdir(parents=parents, exist_ok=exist_ok)] *)
Definition mkdir (parents exist_ok : bool) (p : path) (fs : FS) : result FS :=
  if is_dir fs p then
    if exist_ok then Ok fs else Err (Uncaught "FileExistsError")
  else if parents then
    match fold_left mkdir_ancestor (PathOps.ancestors p) (Ok fs) with
    | Ok fs' => mkdir1 p fs'
    | Err e => Err e
    end
  else mkdir1 p fs.

(** [Path.unlink()] *)
Definition unlink (p : path) (fs : FS) : result FS :=
  match kind_of fs p with
  | Some (File _) => Ok (remove p fs)
  | Some Dir => Err (Uncaught "PermissionError")
  | None => Err (Uncaught "FileNotFoundError")
  end.

(** [Path.chmod(0o755)] *)
Definition chmod_exec (p : path) (fs : FS) : result FS :=
  match kind_of fs p with
  | Some (File _) => Ok (put p (File true) fs)
  | Some Dir => Ok fs
  | None => Err (Uncaught "FileNotFoundError")
  end.

Definition reroot (src dst q : path) : path :=
  if PathOps.is_prefix src q then dst ++ skipn (List.length src) q else q.

Definition has_children (d : path) (fs : FS) : bool :=
  existsb (fun e => below d (fst e)) fs.

(** [Path.rename(dst)]: on Windows an existing target is an error, on
    POSIX a file replaces a file and a directory an empty directory. *)
Definition rename (windows : bool) (src dst : path) (fs : FS) : result FS :=
  match kind_of fs src with
  | None => Err (Uncaught "FileNotFoundError")
  | Some k =>
      if PathOps.eqb src dst then Ok fs
      else if negb (is_dir fs (PathOps.parent dst)) then Err (Uncaught "FileNotFoundError")
      else if PathOps.is_prefix src dst then Err (Uncaught "OSError")
      else
        let move fs0 := map (fun e => (reroot src dst (fst e), snd e)) fs0 in
        match kind_of fs dst with
        | None => Ok (move fs)
        | Some k' =>
            if windows then Err (Uncaught "FileExistsError")
            else
              match k, k' with
              | File _, File _ => Ok (move (remove dst fs))
              | Dir, Dir =>
                  if has_children dst fs then Err (Uncaught "OSError")
                  else Ok (move (remove dst fs))
              | File _, Dir => Err (Uncaught "IsADirectoryError")
              | Dir, File _ => Err (Uncaught "NotADirectoryError")
              end
        end
  end.

(** [Path.rmdir()] *)
Definition rmdir (p : path) (fs : FS) : result FS :=
  match kind_of fs p, p with
  | Some Dir, _ :: _ =>
      if has_children p fs then Err (Uncaught "OSError") else Ok (remove p fs)
  | Some Dir, [] => Err (Uncaught "OSError")
  | Some (File _), _ => Err (Uncaught "NotADirectoryError")
  | None, _ => Err (Uncaught "FileNotFoundError")
  end.

(** [shutil.rmtree(p)] *)
Definition rmtree (p : path) (fs : FS) : result FS :=
  match kind_of fs p, p with
  | Some Dir, _ :: _ => Ok (filter (fun e => negb (PathOps.is_prefix p (fst e))) fs)
  | Some Dir, [] => Err (Uncaught "OSError")
  | Some (File _), _ => Err (Uncaught "NotADirectoryError")
  | None, _ => Err (Uncaught "FileNotFoundError")
  end.

(** [list(p.iterdir())] *)
Definition iterdir (d : path) (fs : FS) : list path :=
  map fst (filter (fun e => child_of d (fst e)) fs).

(** [list(d.rglob("*.exe"))] *)
Definition rglob_exe (d : path) (fs : FS) : list path :=
  map fst (filter (fun e => below d (fst e) && Str.ends_with ".exe" (PathOps.name (fst e))) fs).

(** The pattern [pano*.tif] on one name. *)
Definition pano_tif (n : string) : bool :=
  String.prefix "pano" n && Str.ends_with ".tif" n && (8 <=? String.length n)%nat.

(** [d.glob("pano*.tif")] *)
Definition glob_pano_tif (d : path) (fs : FS) : list path :=
  filter (fun q => pano_tif (PathOps.name q)) (iterdir d fs).

(** One member of an archive written below [dir]. *)
Definition extract_entry (dir : path) (acc : result FS) (e : path * node) : result FS :=
  match acc with
  | Err x => Err x
  | Ok fs =>
      let p := dir ++ fst e in
      match fst e with
      | [] => Ok fs
      | _ =>
          match fold_left mkdir_ancestor (PathOps.ancestors p) (Ok fs) with
          | Err x => Err x
          | Ok fs1 =>
              match snd e with
              | Dir => mkdir false true p fs1
              | File x =>
                  if is_dir fs1 p then Err (Uncaught "IsADirectoryError")
                  else Ok (put p (File x) fs1)
              end
          end
      end
  end.

(** [ZipFile.extractall(dir)] and [TarFile.extractall(dir)] *)
Definition extractall (dir : path) (entries : list (path * node)) (fs : FS) : result FS :=
  fold_left (extract_entry dir) entries (Ok fs).

End Fs.

(** ** The resize geometry

    The argument of [-extent] is a pair of [fx] expressions over the width
    [w] and the height [h] of the input raster. *)

Inductive fx : Type :=
| fx_w
| fx_h
| fx_num (n : Z)
| fx_mul (a b : fx)
| fx_div (a b : fx)
| fx_max (a b : fx).

Fixpoint fx_eval (w h : Q) (e : fx) : Q :=
  match e with
  | fx_w => w
  | fx_h => h
  | fx_num n => inject_Z n
  | fx_mul a b => (fx_eval w h a * fx_eval w h b)%Q
  | fx_div a b => (fx_eval w h a / fx_eval w h b)%Q
  | fx_max a b => Qmax (fx_eval w h a) (fx_eval w h b)
  end.

Fixpoint fx_show (e : fx) : string :=
  match e with
  | fx_w => "w"
  | fx_h => "h"
  | fx_num n => NilZero.string_of_int (Z.to_int n)
  | fx_mul a b => fx_show a ++ "*" ++ fx_show b
  | fx_div a b => fx_show a ++ "/" ++ fx_show b
  | fx_max a b => "max(" ++ fx_show a ++ "," ++ fx_show b ++ ")"
  end.

Definition extent_width : fx := fx_max fx_w (fx_mul fx_h (fx_num 2)).
Definition extent_height : fx := fx_max (fx_div fx_w (fx_num 2)) fx_h.

Definition extent_geometry : string :=
  "%[fx:" ++ fx_show extent_width ++ "]x%[fx:" ++ fx_show extent_height ++ "]".

Definition new_width (w h : Z) : Q := fx_eval (inject_Z w) (inject_Z h) extent_width.
Definition new_height (w h : Z) : Q := fx_eval (inject_Z w) (inject_Z h) extent_height.

(** ** Program state and the script monad *)

(** One word of a command line: a literal string or a path. *)
Inductive arg : Type :=
| A (s : string)
| P (p : path).

Inductive event : Type :=
| EPrint (line : string)         (* a line on standard output *)
| ELookup (tool : string)        (* the script starts resolving a tool *)
| EDownload (url : string)       (* [urllib.request.urlretrieve] *)
| ERun (argv : list arg).        (* [subprocess.run] starts a process *)

Record state : Type := mkState { fs : FS; trace : list event }.

Definition M (A : Type) : Type := state -> result A * state.

Definition ret {A} (a : A) : M A := fun s => (Ok a, s).

Definition bind {A B} (m : M A) (k : A -> M B) : M B :=
  fun s =>
    match m s with
    | (Ok a, s') => k a s'
    | (Err e, s') => (Err e, s')
    end.

Declare Scope script_scope.
Delimit Scope script_scope with script.
Notation "x <- m ;; k" := (bind m (fun x => k))
  (at level 61, m at next level, right associativity) : script_scope.
Notation "m ;; k" := (bind m (fun _ => k))
  (at level 61, right associativity) : script_scope.
Local Open Scope script_scope.

Definition get_fs : M FS := fun s => (Ok (fs s), s).

Definition log (e : event) : M unit :=
  fun s => (Ok tt, mkState (fs s) (trace s ++ [e])).

Definition print (line : string) : M unit := log (EPrint line).

Definition raise {A} (exn : string) : M A := fun s => (Err (Uncaught exn), s).

(** A file-system call: the store changes on success, the exception
    escapes otherwise. *)
Definition fs_op (f : FS -> result FS) : M unit :=
  fun s =>
    match f (fs s) with
    | Ok fs' => (Ok tt, mkState fs' (trace s))
    | Err e => (Err e, s)
    end.

Definition when (b : bool) (m : M unit) : M unit := if b then m else ret tt.

(** [fail(msg)] *)
Definition fail_line (msg : string) : string := Str.nl ++ "❌ " ++ msg.

Definition fail {A} (msg : string) : M A :=
  fun s => (Err (SystemExit 1), mkState (fs s) (trace s ++ [EPrint (fail_line msg)])).

(** Only the process invocations of a trace. *)
Definition is_run (e : event) : bool :=
  match e with ERun _ => true | _ => false end.

Definition runs (t : list event) : list event := filter is_run t.

Definition is_download (e : event) : bool :=
  match e with EDownload _ => true | _ => false end.

Definition downloads (t : list event) : list event := filter is_download t.

Definition is_lookup (e : event) : bool :=
  match e with ELookup _ => true | _ => false end.

Definition lookups (t : list event) : list event := filter is_lookup t.

(** ** The world outside the script *)

Inductive download : Type :=
| NetworkError
| NotAnArchive
| Archive (entries : list (path * node)).

Record world : Type := mkWorld {
  system : string;                            (* [platform.system()] *)
  search_path : list path;                    (* the directories of [PATH] *)
  pathext : list string;                      (* suffixes [shutil.which] tries *)
  exec : list arg -> FS -> bool * FS;         (* a process: exit status 0?, store after *)
  fetch : string -> download                  (* what a URL delivers *)
}.

(** ** Configuration *)

Definition SKYFILL_URLS (sys : string) : option string :=
  if String.eqb sys "Windows" then
    Some "https://stuvelfoto.nl/downloads/skyfill/skyfill-v1.6-windows.zip"
  else if String.eqb sys "Linux" then
    Some "https://stuvelfoto.nl/downloads/skyfill/skyfill-v1.6-linux.tar.gz"
  else None.

Definition EXIFTOOL_URL : string :=
  "https://sourceforge.net/projects/exiftool/files/exiftool-13.45_64.zip/download".

Definition HUGIN_BIN (sys : string) : option path :=
  if String.eqb sys "Windows" then Some ["C:"; "Program Files"; "Hugin"; "bin"] else None.

Definition TOOLS_DIR : path := ["tools"].
Definition TEMP_DIR : path := ["temp"].
Definition OUTPUT_DIR : path := ["output"].

(** The [TOOLS] dictionary. *)
Record tools : Type := mkTools {
  pto_gen : path;
  cpfind : path;
  autooptimiser : path;
  pano_modify : path;
  nona : path;
  enblend : path;
  magick : path
}.

Section Script.

Variable W : world.

Definition windows : bool := String.eqb (system W) "Windows".

Definition sep : string := if windows then "\" else "/".

(** [str(p)] as it is echoed. *)
Definition str (p : path) : string :=
  match p with
  | [] => "."
  | _ => String.concat sep p
  end.

Definition show_arg (a : arg) : string :=
  match a with
  | A s => s
  | P p => str p
  end.

(** [shutil.which(name)]: the first candidate on the search path that is
    a regular file with the execute permission. *)
Definition which (name : string) (f : FS) : option path :=
  find (Fs.is_exec_file f)
       (flat_map (fun d => map (fun ext => d // (name ++ ext)) (pathext W)) (search_path W)).

(** *** Utilities *)

Definition find_tool (name : string) : M path :=
  log (ELookup name) ;;
  f <- get_fs ;;
  let fall_back : M path :=
    match which name f with
    | Some found => ret found
    | None => fail ("Tool '" ++ name ++ "' not found in Hugin directory or PATH")
    end in
  match HUGIN_BIN (system W) with
  | Some hugin =>
      if Fs.exists_ f hugin then
        let tool_path := hugin // (if windows then name ++ ".exe" else name) in
        if Fs.exists_ f tool_path then ret tool_path else fall_back
      else fall_back
  | None => fall_back
  end.

Definition run (cmd : list arg) : M unit :=
  print ("▶ " ++ String.concat " " (map show_arg cmd)) ;;
  log (ERun cmd) ;;
  fun s =>
    let (ok, f') := exec W cmd (fs s) in
    if ok then (Ok tt, mkState f' (trace s))
    else (Err (Uncaught "CalledProcessError"), mkState f' (trace s)).

(** [urllib.request.urlretrieve(url, archive)]; the value is the content
    of the file that was written. *)
Definition urlretrieve (url : string) (archive : path) : M (option (list (path * node))) :=
  log (EDownload url) ;;
  match fetch W url with
  | NetworkError => raise "URLError"
  | NotAnArchive =>
      f <- get_fs ;;
      if Fs.is_dir f (PathOps.parent archive) && negb (Fs.is_dir f archive)
      then fs_op (fun f => Ok (Fs.put archive (File false) f)) ;; ret None
      else raise "OSError"
  | Archive entries =>
      f <- get_fs ;;
      if Fs.is_dir f (PathOps.parent archive) && negb (Fs.is_dir f archive)
      then fs_op (fun f => Ok (Fs.put archive (File false) f)) ;; ret (Some entries)
      else raise "OSError"
  end.

(** [with zipfile.ZipFile(archive) as z: z.extractall(dir)], and the same
    for [tarfile.open]. *)
Definition unpack (bad : string) (content : option (list (path * node))) (dir : path) : M unit :=
  match content with
  | None => raise bad
  | Some entries => fs_op (Fs.extractall dir entries)
  end.

(** *** Step 2 *)

Definition locate_tools : M tools :=
  t1 <- find_tool "pto_gen" ;;
  t2 <- find_tool "cpfind" ;;
  t3 <- find_tool "autooptimiser" ;;
  t4 <- find_tool "pano_modify" ;;
  t5 <- find_tool "nona" ;;
  t6 <- find_tool "enblend" ;;
  log (ELookup "magick") ;;
  f <- get_fs ;;
  t7 <- match which "magick" f with
        | Some found => ret found
        | None => fail "ImageMagick not found in PATH"
        end ;;
  ret (mkTools t1 t2 t3 t4 t5 t6 t7).

(** *** Step 3: SkyFill *)

Definition skyfill_dir : path := TOOLS_DIR // "skyfill".

Definition skyfill_exe : path :=
  skyfill_dir // (if windows then "skyfill.exe" else "skyfill").

Definition ensure_skyfill : M path :=
  match SKYFILL_URLS (system W) with
  | None => fail ("SkyFill not available for " ++ system W)
  | Some url =>
      let exe := skyfill_exe in
      f <- get_fs ;;
      if Fs.exists_ f exe then ret exe
      else
        print "⬇ Downloading SkyFill..." ;;
        fs_op (Fs.mkdir true true skyfill_dir) ;;
        let archive := skyfill_dir // PathOps.url_name url in
        content <- urlretrieve url archive ;;
        (if String.eqb (PathOps.suffix archive) ".zip"
         then unpack "BadZipFile" content skyfill_dir
         else unpack "ReadError" content skyfill_dir) ;;
        fs_op (Fs.unlink archive) ;;
        f <- get_fs ;;
        when (negb (Fs.exists_ f exe)) (fail "SkyFill executable not found after extraction") ;;
        when (negb windows) (fs_op (Fs.chmod_exec exe)) ;;
        ret exe
  end.

(** *** Step 3.5: ExifTool *)

Definition exiftool_dir : path := TOOLS_DIR // "exiftool".

Definition exiftool_exe : path := exiftool_dir // "exiftool.exe".

(** The loop over [subdir.iterdir()]. *)
Fixpoint relocate (items : list path) : M unit :=
  match items with
  | [] => ret tt
  | item :: rest =>
      let dest := exiftool_dir // PathOps.name item in
      fs_op (Fs.rename windows item dest) ;;
      f <- get_fs ;;
      when (Fs.is_file f dest && String.eqb (PathOps.name dest) "exiftool(-k).exe")
           (fs_op (Fs.rename windows dest exiftool_exe)) ;;
      relocate rest
  end.

Definition ensure_exiftool : M path :=
  if windows then
    let exe := exiftool_exe in
    f <- get_fs ;;
    if Fs.exists_ f exe then ret exe
    else
      print "⬇ Downloading ExifTool (this may take a while from SourceForge)..." ;;
      fs_op (Fs.mkdir true true exiftool_dir) ;;
      let archive := exiftool_dir // "exiftool.zip" in
      content <- urlretrieve EXIFTOOL_URL archive ;;
      print "" ;;
      print "📦 Extracting ExifTool..." ;;
      unpack "BadZipFile" content exiftool_dir ;;
      fs_op (Fs.unlink archive) ;;
      let temp_exe := exiftool_dir // "exiftool(-k).exe" in
      f <- get_fs ;;
      (if Fs.exists_ f temp_exe then fs_op (Fs.rename windows temp_exe exe)
       else if negb (Fs.exists_ f exe) then
         match Fs.rglob_exe exiftool_dir f with
         | first :: _ =>
             let subdir := PathOps.parent first in
             relocate (Fs.iterdir subdir f) ;;
             fs_op (Fs.rmdir subdir)
         | [] => fail "ExifTool executable not found after extraction"
         end
       else ret tt) ;;
      ret exe
  else
    log (ELookup "exiftool") ;;
    f <- get_fs ;;
    match which "exiftool" f with
    | Some found => ret found
    | None => fail "ExifTool not found. Please install it using your package manager (e.g., 'sudo apt install libimage-exiftool-perl')"
    end.

(** *** Steps 4 to 8: the stages *)

Definition pto : path := TEMP_DIR // "pano.pto".
Definition stitched : path := TEMP_DIR // "stitched.tif".
Definition resized : path := TEMP_DIR // "resized.jpg".

Definition final_of (image_dir : path) : path :=
  OUTPUT_DIR // (PathOps.name image_dir ++ "_pano.jpg").

Definition skyfill_output : path :=
  PathOps.parent resized // (PathOps.stem resized ++ "-filled.jpg").

Variable image_dir : path.
Variable TOOLS : tools.
Variable skyfill : path.
Variable exiftool : path.

Definition final : path := final_of image_dir.

Definition pto_gen_cmd : list arg :=
  [P (pto_gen TOOLS); P (image_dir // "*"); A "-o"; P pto].

Definition cpfind_cmd : list arg :=
  [P (cpfind TOOLS); A "--multirow"; A "-o"; P pto; P pto].

Definition autooptimiser_cmd : list arg :=
  [P (autooptimiser TOOLS); A "-a"; A "-m"; A "-l"; A "-s"; A "-o"; P pto; P pto].

Definition pano_modify_cmd : list arg :=
  [P (pano_modify TOOLS); A "--canvas=AUTO"; A "-o"; P pto; P pto].

Definition nona_cmd : list arg :=
  [P (nona TOOLS); A "-o"; P (TEMP_DIR // "pano"); P pto].

(** The remapped images are globbed when the command line is built. *)
Definition enblend_cmd (f : FS) : list arg :=
  [P (enblend TOOLS); A "-o"; P stitched] ++ map P (Fs.glob_pano_tif TEMP_DIR f).

Definition magick_cmd : list arg :=
  [P (magick TOOLS); P stitched;
   A "-gravity"; A "south";
   A "-background"; A "black";
   A "-extent"; A extent_geometry;
   P resized].

Definition skyfill_cmd : list arg :=
  [P skyfill; A "-quality"; A "95"; A "-no-gpano-xmp"; A "-out"; A "jpeg"; P resized].

Definition exiftool_cmd : list arg :=
  [P exiftool;
   A "-UsePanoramaViewer=true";
   A "-ProjectionType=equirectangular";
   A "-overwrite_original";
   P final].

(** Step 4 *)
Definition stitch_group (debug_skip : bool) : M unit :=
  f <- get_fs ;;
  if debug_skip && Fs.exists_ f stitched then
    print (Str.nl ++ "⏭️ Skipping stitching (temp files exist)")
  else
    print (Str.nl ++ "📸 Creating panorama project...") ;;
    run pto_gen_cmd ;;
    run cpfind_cmd ;;
    run autooptimiser_cmd ;;
    run pano_modify_cmd ;;
    print (Str.nl ++ "🔨 Stitching images...") ;;
    run nona_cmd ;;
    f <- get_fs ;;
    run (enblend_cmd f).

(** Step 5 *)
Definition resize_group (debug_skip : bool) : M unit :=
  f <- get_fs ;;
  if debug_skip && Fs.exists_ f resized then
    print (Str.nl ++ "⏭️ Skipping resize (temp file exists)")
  else
    print (Str.nl ++ "📐 Resizing to equirectangular format...") ;;
    run magick_cmd.

(** Step 6 *)
Definition skyfill_stage : M unit :=
  print (Str.nl ++ "🌤️ Filling sky with SkyFill...") ;;
  run skyfill_cmd ;;
  f <- get_fs ;;
  when (negb (Fs.exists_ f skyfill_output))
       (fail ("SkyFill did not create expected output file: " ++ str skyfill_output)) ;;
  fs_op (Fs.rename windows skyfill_output final).

(** Step 7 *)
Definition metadata_stage : M unit :=
  print (Str.nl ++ "📝 Adding panorama metadata...") ;;
  run exiftool_cmd.

(** Step 8 *)
Definition cleanup : M unit :=
  fs_op (Fs.rmtree TEMP_DIR) ;;
  print (Str.nl ++ "🎉 Done → " ++ str final).

Definition pipeline (debug_skip : bool) : M unit :=
  fs_op (Fs.mkdir false true TEMP_DIR) ;;
  fs_op (Fs.mkdir false true OUTPUT_DIR) ;;
  stitch_group debug_skip ;;
  resize_group debug_skip ;;
  skyfill_stage ;;
  metadata_stage ;;
  cleanup.

(** *** The stages by name, and where each one writes *)

Inductive stage : Type :=
| ProjectGeneration | ControlPoints | Optimisation | CanvasSize
| Remap | Blend | Resize | SkyFill | Relocation | Metadata | Cleanup.

Definition stage_cmd (st : stage) (f : FS) : option (list arg) :=
  match st with
  | ProjectGeneration => Some pto_gen_cmd
  | ControlPoints => Some cpfind_cmd
  | Optimisation => Some autooptimiser_cmd
  | CanvasSize => Some pano_modify_cmd
  | Remap => Some nona_cmd
  | Blend => Some (enblend_cmd f)
  | Resize => Some magick_cmd
  | SkyFill => Some skyfill_cmd
  | Metadata => Some exiftool_cmd
  | Relocation | Cleanup => None
  end.

(** The word after [-o]. *)
Fixpoint dash_o (cmd : list arg) : option path :=
  match cmd with
  | A "-o" :: P p :: _ => Some p
  | _ :: rest => dash_o rest
  | [] => None
  end.

Fixpoint last_path (cmd : list arg) : option path :=
  match cmd with
  | [] => None
  | [P p] => Some p
  | _ :: rest => last_path rest
  end.

(** The path a stage writes: the [-o] argument of the panorama tools
    (for the remapper the prefix of its numbered outputs), the last word
    of the resize command, the fixed name next to its input for the
    sky-fill tool, the target of the rename, the file rewritten in place
    by the metadata editor.  The cleanup writes nothing. *)
Definition stage_output (st : stage) (f : FS) : option path :=
  match st with
  | ProjectGeneration | ControlPoints | Optimisation | CanvasSize | Remap | Blend =>
      match stage_cmd st f with Some cmd => dash_o cmd | None => None end
  | Resize => last_path magick_cmd
  | SkyFill => Some skyfill_output
  | Relocation => Some final
  | Metadata => last_path exiftool_cmd
  | Cleanup => None
  end.

End Script.

(** ** Steps 1 to 8 in sequence *)

Definition main (W : world) (images : path) (debug_skip : bool) : M unit :=
  let image_dir := images in
  f <- get_fs ;;
  when (negb (Fs.is_dir f image_dir)) (fail "Image folder does not exist") ;;
  print "🔍 Locating required tools..." ;;
  TOOLS <- locate_tools W ;;
  print "✅ Hugin and ImageMagick detected" ;;
  skyfill <- ensure_skyfill W ;;
  print "✅ SkyFill ready" ;;
  exiftool <- ensure_exiftool W ;;
  print "✅ ExifTool ready" ;;
  pipeline W image_dir TOOLS skyfill exiftool debug_skip.

(** Stages that rewrite the project file, and stages that write the final
    image. *)
Definition writes_project (st : stage) : bool :=
  match st with
  | ProjectGeneration | ControlPoints | Optimisation | CanvasSize => true
  | _ => false
  end.

Definition writes_final (st : stage) : bool :=
  match st with
  | Relocation | Metadata => true
  | _ => false
  end.

(** The two messages of a failed tool lookup. *)
Definition tool_not_found (name : string) : string :=
  "Tool '" ++ name ++ "' not found in Hugin directory or PATH".

Definition imagemagick_not_found : string := "ImageMagick not found in PATH".

(** Where a path returned by [find_tool] comes from: the search path, where
    it is an executable regular file, or the fixed installation directory. *)
Definition tool_origin (W : world) (name : string) (f : FS) (p : path) : Prop :=
  Fs.is_exec_file f p = true
  \/ exists hugin, HUGIN_BIN (system W) = Some hugin
                   /\ p = hugin // (if windows W then (name ++ ".exe")%string else name).

Definition tools_exist (f : FS) (T : tools) : Prop :=
  Fs.exists_ f (pto_gen T) = true /\ Fs.exists_ f (cpfind T) = true /\
  Fs.exists_ f (autooptimiser T) = true /\ Fs.exists_ f (pano_modify T) = true /\
  Fs.exists_ f (nona T) = true /\ Fs.exists_ f (enblend T) = true /\
  Fs.exists_ f (magick T) = true.


Definition temp_exists (f : FS) : Prop := Fs.exists_ f TEMP_DIR = true.

(** What is assumed of the external programs where a claim is about the
    temporary workspace: none of them removes it. *)
Definition tools_leave_temp (W : world) : Prop :=
  forall cmd f, temp_exists f -> temp_exists (snd (exec W cmd f)).

Definition outside_temp (e : path * node) : bool :=
  negb (PathOps.is_prefix TEMP_DIR (fst e)).

(** ** Concrete worlds, used to run the script on examples *)

Definition touch (p : path) (f : FS) : FS := Fs.put p (File false) f.

Definition has_word (w : string) (cmd : list arg) : bool :=
  existsb (fun a => match a with A s => String.eqb s w | P _ => false end) cmd.

(** Tools that do what the script expects of them: a panorama tool writes
    its [-o] file, the resizer its last word, the sky-fill tool a
    [-filled.jpg] next to its input; the metadata editor rewrites in place. *)
Definition studio_exec (cmd : list arg) (f : FS) : bool * FS :=
  (true,
   match dash_o cmd, last_path cmd with
   | Some p, _ => touch p f
   | None, Some q =>
       if has_word "-extent" cmd then touch q f
       else if has_word "-out" cmd then
         touch (PathOps.parent q // (PathOps.stem q ++ "-filled.jpg")) f
       else f
   | None, None => f
   end).


Definition no_network (url : string) : download := NetworkError.

Definition usr_bin : path := [""; "usr"; "bin"].

Definition linux : world := mkWorld "Linux" [usr_bin] [""] studio_exec no_network.


Definition darwin : world := mkWorld "Darwin" [usr_bin] [""] studio_exec no_network.

(** An archive whose only executable carries another name than the two
    the script knows. *)
Definition renamed_release : list (path * node) :=
  [ (["exiftool-13.45_64"], Dir);
    (["exiftool-13.45_64"; "exiftool-13.45_64.exe"], File false);
    (["exiftool-13.45_64"; "README.txt"], File false) ].

Definition sourceforge (url : string) : download :=
  if String.eqb url EXIFTOOL_URL then Archive renamed_release else NetworkError.

Definition windows_pc : world :=
  mkWorld "Windows" [["C:"; "Windows"]] [".exe"] studio_exec sourceforge.

Definition installed (names : list string) : FS :=
  map (fun n => (usr_bin // n, File true)) names.

(** A Linux machine with every tool installed, a folder of shots and a
    sky-fill executable from an earlier run. *)
Definition linux_fs : FS :=
  [ ([""], Dir); ([""; "usr"], Dir); (usr_bin, Dir) ] ++
  installed ["pto_gen"; "cpfind"; "autooptimiser"; "pano_modify"; "nona"; "enblend";
             "magick"; "exiftool"] ++
  [ (["drone_shots"], Dir); (["drone_shots"; "DJI_0001.JPG"], File false);
    (["tools"], Dir); (["tools"; "skyfill"], Dir); (["tools"; "skyfill"; "skyfill"], File true) ].

Definition linux_tools : tools :=
  mkTools (usr_bin // "pto_gen") (usr_bin // "cpfind") (usr_bin // "autooptimiser")
          (usr_bin // "pano_modify") (usr_bin // "nona") (usr_bin // "enblend")
          (usr_bin // "magick").

(** The same machine after a run that stopped after the resize. *)
Definition linux_fs_resumed : FS :=
  linux_fs ++
  [ (["temp"], Dir); (["temp"; "pano.pto"], File false);
    (["temp"; "stitched.tif"], File false); (["temp"; "resized.jpg"], File false);
    (["output"], Dir) ].

(** The panorama tools without ImageMagick. *)
Definition linux_fs_no_magick : FS :=
  [ ([""], Dir); ([""; "usr"], Dir); (usr_bin, Dir) ] ++
  installed ["pto_gen"; "cpfind"; "autooptimiser"; "pano_modify"; "nona"; "enblend"] ++
  [ (["drone_shots"], Dir) ].

(** A stale resized raster without the stitched one. *)
Definition linux_fs_stale : FS :=
  linux_fs ++ [ (["temp"], Dir); (["temp"; "resized.jpg"], File false) ].

(** A machine of an unsupported platform that holds a sky-fill executable. *)
Definition darwin_fs : FS :=
  [ (["tools"], Dir); (["tools"; "skyfill"], Dir); (["tools"; "skyfill"; "skyfill"], File true) ].

(** A Windows machine where a directory sits under the name of a tool. *)
Definition hugin_bin_win : path := ["C:"; "Program Files"; "Hugin"; "bin"].

Definition windows_fs_odd : FS :=
  [ (["C:"], Dir); (["C:"; "Program Files"], Dir); (["C:"; "Program Files"; "Hugin"], Dir);
    (hugin_bin_win, Dir); (hugin_bin_win // "nona.exe", Dir) ].

Definition windows_fs_fresh : FS := [ (["shots"], Dir) ].

Definition start (f : FS) : state := mkState f [].

(** A filter on events that a computation leaves as it found it: none of
    the events it adds passes the filter. *)
Definition silent {A} (phi : event -> bool) (m : M A) : Prop :=
  forall s r s', m s = (r, s') -> filter phi (trace s') = filter phi (trace s).



(** The sky-fill release as the download site delivers it. *)
Definition skyfill_release : list (path * node) :=
  [ (["skyfill"], File false); (["README.md"], File false) ].

Definition stuvelfoto (url : string) : download :=
  if String.prefix "https://stuvelfoto.nl/" url then Archive skyfill_release else NetworkError.

Definition linux_online : world := mkWorld "Linux" [usr_bin] [""] studio_exec stuvelfoto.

(** A site that answers every request with something that is no archive. *)
Definition captive_portal (url : string) : download := NotAnArchive.

Definition linux_captive : world := mkWorld "Linux" [usr_bin] [""] studio_exec captive_portal.

(** A Linux machine before the first run. *)
Definition linux_fs_first_run : FS :=
  [ ([""], Dir); ([""; "usr"], Dir); (usr_bin, Dir) ] ++
  installed ["pto_gen"; "cpfind"; "autooptimiser"; "pano_modify"; "nona"; "enblend";
             "magick"; "exiftool"] ++
  [ (["drone_shots"], Dir); (["drone_shots"; "DJI_0001.JPG"], File false) ].

(** The store after the sky-fill tool has written its result, with the
    final image of an earlier run still in output/. *)
Definition linux_fs_second_run : FS :=
  linux_fs ++
  [ (["temp"], Dir); (["temp"; "resized.jpg"], File false);
    (["temp"; "resized-filled.jpg"], File false);
    (["output"], Dir); (["output"; "drone_shots_pano.jpg"], File false) ].

(** A sky-fill tool that has nothing to do: the filled image is there. *)
Definition idle_exec (cmd : list arg) (f : FS) : bool * FS := (true, f).

Definition windows_idle : world :=
  mkWorld "Windows" [["C:"; "Windows"]] [".exe"] idle_exec no_network.

Definition linux_idle : world := mkWorld "Linux" [usr_bin] [""] idle_exec no_network.

(** A metadata-editor archive with the executable at its top level. *)
Definition flat_release : list (path * node) :=
  [ (["exiftool(-k).exe"], File false); (["exiftool_files"], Dir);
    (["exiftool_files"; "perl.exe"], File false) ].

Definition sourceforge_flat (url : string) : download :=
  if String.eqb url EXIFTOOL_URL then Archive flat_release else NetworkError.

Definition windows_flat_pc : world :=
  mkWorld "Windows" [["C:"; "Windows"]] [".exe"] studio_exec sourceforge_flat.

(** The tools that [find_tool] resolves in step 2. *)
Definition panorama_tools : list string :=
  ["pto_gen"; "cpfind"; "autooptimiser"; "pano_modify"; "nona"; "enblend"].

(** * Properties *)

(** ** Basic facts *)

Lemma path_eqb_eq (p q : path) : PathOps.eqb p q = true <-> p = q.
Proof.
  revert q; induction p as [|x p IH]; intros [|y q]; simpl; split; try easy.
  - intros H. apply andb_true_iff in H as [Hx Hp].
    apply String.eqb_eq in Hx. apply IH in Hp. now subst.
  - intros H. injection H as -> ->. rewrite String.eqb_refl. now apply IH.
Qed.

Lemma path_eqb_refl (p : path) : PathOps.eqb p p = true.
Proof. now apply path_eqb_eq. Qed.

Lemma path_eqb_neq (p q : path) : PathOps.eqb p q = false <-> p <> q.
Proof.
  split.
  - intros H E. apply path_eqb_eq in E. congruence.
  - intros H. destruct (PathOps.eqb p q) eqn:E; [|reflexivity].
    apply path_eqb_eq in E. contradiction.
Qed.

Lemma prefix_app (a b : string) : String.prefix a (a ++ b) = true.
Proof.
  induction a as [|c a IH]; simpl.
  - now destruct b.
  - destruct (ascii_dec c c); [exact IH | contradiction].
Qed.

Lemma contains_app (pre sub post : string) :
  Str.contains sub (pre ++ sub ++ post) = true.
Proof.
  induction pre as [|c pre IH]; simpl.
  - pose proof (prefix_app sub post) as H.
    destruct (sub ++ post)%string; cbn [Str.contains]; rewrite H; reflexivity.
  - rewrite IH. apply orb_true_r.
Qed.

Lemma runs_app (t u : list event) : runs (t ++ u) = runs t ++ runs u.
Proof. apply filter_app. Qed.

Lemma downloads_app (t u : list event) : downloads (t ++ u) = downloads t ++ downloads u.
Proof. apply filter_app. Qed.

(** Inversion of a sequencing step. *)
Lemma bind_inv {X Y} (m : M X) (k : X -> M Y) s r s' :
  bind m k s = (r, s') ->
  (exists a s1, m s = (Ok a, s1) /\ k a s1 = (r, s')) \/
  (exists e, m s = (Err e, s') /\ r = Err e).
Proof.
  unfold bind. destruct (m s) as [[a|e] s1]; intros H.
  - left. now exists a, s1.
  - right. exists e. now inversion H.
Qed.

(** ** The store under the script's own operations *)

Lemma find_filter_keeps {X} (g h : X -> bool) (l : list X) :
  (forall x, g x = true -> h x = true) ->
  find g (filter h l) = find g l.
Proof.
  intros Hgh. induction l as [|x l IH]; [reflexivity|].
  cbn [filter find]. destruct (h x) eqn:Hh.
  - cbn [find]. now rewrite IH.
  - rewrite IH. destruct (g x) eqn:Hg; [|reflexivity].
    apply Hgh in Hg. congruence.
Qed.

Lemma find_filter_none {X} (g h : X -> bool) (l : list X) :
  (forall x, g x = true -> h x = false) ->
  find g (filter h l) = None.
Proof.
  intros Hgh. induction l as [|x l IH]; [reflexivity|].
  cbn [filter]. destruct (h x) eqn:Hh; [|exact IH].
  cbn [find]. destruct (g x) eqn:Hg; [|exact IH].
  apply Hgh in Hg. congruence.
Qed.

Lemma kind_of_filter (h : path * node -> bool) (f : FS) (p : path) :
  (forall e, fst e = p -> h e = true) ->
  Fs.kind_of (filter h f) p = Fs.kind_of f p.
Proof.
  intros H. unfold Fs.kind_of. destruct p as [|x p]; [reflexivity|].
  rewrite find_filter_keeps; [reflexivity|].
  intros e He. apply H. now apply path_eqb_eq.
Qed.

Lemma kind_of_put_same (p : path) (n : node) (f : FS) :
  p <> [] -> Fs.kind_of (Fs.put p n f) p = Some n.
Proof.
  intros Hp. unfold Fs.kind_of. destruct p as [|x p]; [contradiction|].
  induction f as [|[q m] f IH]; cbn [Fs.put find fst].
  - now rewrite path_eqb_refl.
  - destruct (PathOps.eqb q (x :: p)) eqn:E; cbn [find fst].
    + now rewrite path_eqb_refl.
    + rewrite E. exact IH.
Qed.

Lemma kind_of_put_other (p q : path) (n : node) (f : FS) :
  p <> q -> Fs.kind_of (Fs.put q n f) p = Fs.kind_of f p.
Proof.
  intros Hpq. unfold Fs.kind_of. destruct p as [|x p]; [reflexivity|].
  induction f as [|[q' m] f IH]; cbn [Fs.put find fst].
  - assert (E : PathOps.eqb q (x :: p) = false) by (apply path_eqb_neq; congruence).
    now rewrite E.
  - destruct (PathOps.eqb q' q) eqn:E; cbn [find fst].
    + apply path_eqb_eq in E. subst q'.
      assert (E : PathOps.eqb q (x :: p) = false) by (apply path_eqb_neq; congruence).
      now rewrite E.
    + destruct (PathOps.eqb q' (x :: p)); [reflexivity | exact IH].
Qed.

Lemma exists_put (p q : path) (n : node) (f : FS) :
  Fs.exists_ f q = true -> Fs.exists_ (Fs.put p n f) q = true.
Proof.
  unfold Fs.exists_. intros H.
  destruct q as [|y q]; [reflexivity|].
  destruct (list_eq_dec string_dec (y :: q) p) as [<-|N].
  - rewrite kind_of_put_same; [reflexivity | discriminate].
  - rewrite kind_of_put_other; assumption.
Qed.

Lemma is_dir_exists (f : FS) (p : path) : Fs.is_dir f p = true -> Fs.exists_ f p = true.
Proof. unfold Fs.is_dir, Fs.exists_. destruct (Fs.kind_of f p) as [[]|]; easy. Qed.

Lemma temp_gone_after_rmtree (f f' : FS) :
  Fs.rmtree TEMP_DIR f = Ok f' ->
  f' = filter outside_temp f /\ Fs.exists_ f' TEMP_DIR = false.
Proof.
  unfold Fs.rmtree. destruct (Fs.kind_of f TEMP_DIR) as [[]|]; cbn; try discriminate.
  intros H. injection H as <-. split; [reflexivity|].
  unfold Fs.exists_, Fs.kind_of; cbn [TEMP_DIR].
  rewrite find_filter_none; [reflexivity|].
  intros e He. apply path_eqb_eq in He. rewrite He. reflexivity.
Qed.

Lemma rmtree_fails_in_place (f : FS) (e : error) :
  Fs.rmtree TEMP_DIR f = Err e -> Fs.is_dir f TEMP_DIR = false.
Proof.
  unfold Fs.rmtree, Fs.is_dir.
  destruct (Fs.kind_of f TEMP_DIR) as [[]|]; cbn; try discriminate; reflexivity.
Qed.

(** ** The text handed to the tools *)

Example extent_geometry_text :
  extent_geometry = "%[fx:max(w,h*2)]x%[fx:max(w/2,h)]".
Proof. reflexivity. Qed.

Example skyfill_archive_names :
  PathOps.url_name "https://stuvelfoto.nl/downloads/skyfill/skyfill-v1.6-windows.zip"
  = "skyfill-v1.6-windows.zip"
  /\ PathOps.suffix_of "skyfill-v1.6-windows.zip" = ".zip"
  /\ PathOps.suffix_of "skyfill-v1.6-linux.tar.gz" = ".gz".
Proof. repeat split. Qed.

Example skyfill_output_path : skyfill_output = ["temp"; "resized-filled.jpg"].
Proof. reflexivity. Qed.

Example final_path : final ["flights"; "drone_shots"] = ["output"; "drone_shots_pano.jpg"].
Proof. reflexivity. Qed.

Example pano_tif_names :
  Fs.pano_tif "pano0000.tif" = true /\ Fs.pano_tif "pano.tif" = true
  /\ Fs.pano_tif "stitched.tif" = false /\ Fs.pano_tif "pano.pto" = false.
Proof. repeat split. Qed.

(** ** C1: the resize geometry *)

(** C1. For every input raster of width [w] and height [h] the computed
    output width, max(w, 2h), is exactly twice the computed output height,
    max(w/2, h), in rational arithmetic. *)
Theorem resize_extent_two_to_one (w h : Z) :
  (new_width w h == 2 * new_height w h)%Q.
Proof.
  unfold new_width, new_height, extent_width, extent_height; simpl.
  set (a := inject_Z w). set (b := inject_Z h).
  change (inject_Z 2) with 2%Q.
  destruct (Q.max_spec a (b * 2)) as [[H1 E1]|[H1 E1]];
    destruct (Q.max_spec (a / 2) b) as [[H2 E2]|[H2 E2]];
    rewrite E1, E2.
  - ring.
  - exfalso. assert (a == (a / 2) * 2)%Q by (field). lra.
  - exfalso. assert (a == (a / 2) * 2)%Q by (field). lra.
  - field.
Qed.

(** ** C8: the image folder is checked first *)

(** C8. If the supplied image folder is not a directory, the run ends with
    a nonzero exit status, and the only thing it has done by then is print
    the error line: no tool was looked up, nothing was downloaded and no
    external process was started. *)
Theorem missing_image_folder_exits_first
    (W : world) (images : path) (debug_skip : bool) (s : state) :
  Fs.is_dir (fs s) images = false ->
  let out := main W images debug_skip s in
  out = (Err (SystemExit 1),
         mkState (fs s) (trace s ++ [EPrint (fail_line "Image folder does not exist")]))
  /\ exit_status (fst out) <> 0%Z
  /\ runs (trace (snd out)) = runs (trace s)
  /\ lookups (trace (snd out)) = lookups (trace s)
  /\ downloads (trace (snd out)) = downloads (trace s).
Proof.
  intros H out.
  assert (E : out = (Err (SystemExit 1),
                     mkState (fs s) (trace s ++ [EPrint (fail_line "Image folder does not exist")]))).
  { subst out. unfold main, bind, get_fs, when. rewrite H. reflexivity. }
  rewrite E; cbn [fst snd trace exit_status].
  repeat split.
  - discriminate.
  - rewrite runs_app. apply app_nil_r.
  - unfold lookups. rewrite filter_app. apply app_nil_r.
  - rewrite downloads_app. apply app_nil_r.
Qed.

Lemma missing_image_folder_exits_first_witness :
  Fs.is_dir (fs (start linux_fs)) ["holiday"] = false /\
  fst (main linux ["holiday"] false (start linux_fs)) = Err (SystemExit 1).
Proof.
  split; [reflexivity|].
  pose proof (missing_image_folder_exits_first linux ["holiday"] false (start linux_fs) eq_refl) as H.
  cbv zeta in H. destruct H as [H _]. rewrite H. reflexivity.
Defined.

(** ** C6: the skip shortcut *)

(** C6. With the skip flag set, a stage group whose expected output is
    already there (temp/stitched.tif for the stitch group, temp/resized.jpg
    for the resize group) starts none of its external commands: the group
    only prints its notice. *)
Theorem skip_shortcut_runs_nothing
    (W : world) (image_dir : path) (TOOLS : tools) (s : state) :
  (Fs.exists_ (fs s) stitched = true ->
   stitch_group W image_dir TOOLS true s
   = (Ok tt, mkState (fs s)
               (trace s ++ [EPrint (Str.nl ++ "⏭️ Skipping stitching (temp files exist)")]))
   /\ runs (trace (snd (stitch_group W image_dir TOOLS true s))) = runs (trace s))
  /\
  (Fs.exists_ (fs s) resized = true ->
   resize_group W TOOLS true s
   = (Ok tt, mkState (fs s)
               (trace s ++ [EPrint (Str.nl ++ "⏭️ Skipping resize (temp file exists)")]))
   /\ runs (trace (snd (resize_group W TOOLS true s))) = runs (trace s)).
Proof.
  split; intros H.
  - assert (E : stitch_group W image_dir TOOLS true s
                = (Ok tt, mkState (fs s)
                     (trace s ++ [EPrint (Str.nl ++ "⏭️ Skipping stitching (temp files exist)")]))).
    { unfold stitch_group, bind, get_fs. cbn [andb]. rewrite H. reflexivity. }
    split; [exact E|]. rewrite E. cbn [snd trace]. rewrite runs_app. apply app_nil_r.
  - assert (E : resize_group W TOOLS true s
                = (Ok tt, mkState (fs s)
                     (trace s ++ [EPrint (Str.nl ++ "⏭️ Skipping resize (temp file exists)")]))).
    { unfold resize_group, bind, get_fs. cbn [andb]. rewrite H. reflexivity. }
    split; [exact E|]. rewrite E. cbn [snd trace]. rewrite runs_app. apply app_nil_r.
Qed.

Lemma skip_shortcut_runs_nothing_witness :
  Fs.exists_ linux_fs_resumed stitched = true /\
  Fs.exists_ linux_fs_resumed resized = true /\
  runs (trace (snd (stitch_group linux ["drone_shots"] linux_tools true (start linux_fs_resumed)))) = [] /\
  runs (trace (snd (resize_group linux linux_tools true (start linux_fs_resumed)))) = [].
Proof.
  destruct (skip_shortcut_runs_nothing linux ["drone_shots"] linux_tools (start linux_fs_resumed))
    as [Hs Hr].
  split; [reflexivity|]. split; [reflexivity|].
  split.
  - exact (proj2 (Hs eq_refl)).
  - exact (proj2 (Hr eq_refl)).
Defined.

(** ** C2: the sky-fill fetcher and a local copy *)

(** C2, as stated, fails: on a platform without a download URL the fetcher
    stops at the platform check although the executable is there. *)
Lemma ensure_skyfill_platform_check_comes_first :
  Fs.exists_ darwin_fs (skyfill_exe darwin) = true /\
  ensure_skyfill darwin (start darwin_fs)
  = (Err (SystemExit 1),
     mkState darwin_fs [EPrint (fail_line "SkyFill not available for Darwin")]) /\
  fst (ensure_skyfill darwin (start darwin_fs)) <> Ok (skyfill_exe darwin).
Proof. repeat split. discriminate. Qed.

(** C2, amended. The fetcher looks up the download URL of the platform
    first, and only Windows and Linux have one.  On any other platform it
    fails with the unsupported-platform message, whether or not a local
    copy exists.  On a platform that has a URL it then probes the local
    executable and, if it is present, returns it and leaves the state as it
    was.  In both cases no network request is made. *)
Theorem ensure_skyfill_local_copy (W : world) (s : state) :
  (SKYFILL_URLS (system W) <> None <-> system W = "Windows" \/ system W = "Linux")
  /\ (SKYFILL_URLS (system W) = None ->
      ensure_skyfill W s
      = (Err (SystemExit 1),
         mkState (fs s)
                 (trace s ++ [EPrint (fail_line ("SkyFill not available for " ++ system W))])))
  /\ (SKYFILL_URLS (system W) <> None ->
      Fs.exists_ (fs s) (skyfill_exe W) = true ->
      ensure_skyfill W s = (Ok (skyfill_exe W), s))
  /\ (SKYFILL_URLS (system W) = None \/ Fs.exists_ (fs s) (skyfill_exe W) = true ->
      downloads (trace (snd (ensure_skyfill W s))) = downloads (trace s)).
Proof.
  assert (Hnone : SKYFILL_URLS (system W) = None ->
            ensure_skyfill W s
            = (Err (SystemExit 1),
               mkState (fs s)
                 (trace s ++ [EPrint (fail_line ("SkyFill not available for " ++ system W))]))).
  { intros H. unfold ensure_skyfill. rewrite H. reflexivity. }
  assert (Hsome : SKYFILL_URLS (system W) <> None ->
            Fs.exists_ (fs s) (skyfill_exe W) = true ->
            ensure_skyfill W s = (Ok (skyfill_exe W), s)).
  { intros Hu H. unfold ensure_skyfill.
    destruct (SKYFILL_URLS (system W)) as [url|]; [|contradiction].
    unfold bind, get_fs. rewrite H. reflexivity. }
  repeat apply conj.
  - unfold SKYFILL_URLS.
    destruct (String.eqb (system W) "Windows") eqn:Ew.
    + intros _. left. now apply String.eqb_eq.
    + destruct (String.eqb (system W) "Linux") eqn:El.
      * intros _. right. now apply String.eqb_eq.
      * intros H. contradiction.
  - intros [H|H]; unfold SKYFILL_URLS; rewrite H; cbn; discriminate.
  - exact Hnone.
  - exact Hsome.
  - intros [H|H].
    + rewrite (Hnone H). cbn [snd trace]. rewrite downloads_app. apply app_nil_r.
    + destruct (SKYFILL_URLS (system W)) as [url|] eqn:Hu.
      * rewrite Hsome; [reflexivity | discriminate | exact H].
      * rewrite (Hnone eq_refl). cbn [snd trace]. rewrite downloads_app. apply app_nil_r.
Qed.

Lemma ensure_skyfill_local_copy_witness :
  (SKYFILL_URLS (system linux) <> None /\
   Fs.exists_ linux_fs (skyfill_exe linux) = true /\
   ensure_skyfill linux (start linux_fs) = (Ok (skyfill_exe linux), start linux_fs))
  /\
  (SKYFILL_URLS (system darwin) = None /\
   Fs.exists_ linux_fs_first_run (skyfill_exe darwin) = false /\
   ensure_skyfill darwin (start linux_fs_first_run)
   = (Err (SystemExit 1),
      mkState linux_fs_first_run [EPrint (fail_line "SkyFill not available for Darwin")]) /\
   downloads (trace (snd (ensure_skyfill darwin (start linux_fs_first_run)))) = []).
Proof.
  destruct (ensure_skyfill_local_copy linux (start linux_fs)) as (_ & _ & Hl & _).
  destruct (ensure_skyfill_local_copy darwin (start linux_fs_first_run)) as (_ & Hd & _ & Hn).
  assert (U : SKYFILL_URLS (system linux) <> None) by discriminate.
  split.
  - split; [exact U|]. split; [reflexivity|]. exact (Hl U eq_refl).
  - split; [reflexivity|]. split; [reflexivity|].
    split; [exact (Hd eq_refl) | exact (Hn (or_introl eq_refl))].
Defined.

(** ** C3: where the stages write *)

(** C3, as stated, fails: project generation and control-point detection
    are two stages and both write temp/pano.pto. *)
Lemma project_stages_share_one_file :
  ProjectGeneration <> ControlPoints /\
  stage_output ["drone_shots"] linux_tools (skyfill_exe linux) (usr_bin // "exiftool")
               ProjectGeneration linux_fs = Some ["temp"; "pano.pto"] /\
  stage_output ["drone_shots"] linux_tools (skyfill_exe linux) (usr_bin // "exiftool")
               ControlPoints linux_fs = Some ["temp"; "pano.pto"].
Proof. repeat split. discriminate. Qed.

(** C3, amended. The path a stage writes is fixed by the stage alone, up to
    the name of the input folder for the two stages that write the final
    image: it does not depend on the tools found, on the two fetched
    executables or on the files present.  Every stage before the relocation
    writes inside temp/, the last two write
    output/<input-folder-name>_pano.jpg.  Two different stages write the
    same path only if both rewrite the project file temp/pano.pto (project
    generation, control points, optimisation, canvas size) or both write
    the final image (relocation, metadata). *)
Theorem stage_outputs (image_dir : path) (T : tools) (sky exif : path) (f : FS) :
  (forall st image_dir' T' sky' exif' f',
      writes_final st = false ->
      stage_output image_dir T sky exif st f = stage_output image_dir' T' sky' exif' st f')
  /\ (forall st T' sky' exif' f',
      stage_output image_dir T sky exif st f = stage_output image_dir T' sky' exif' st f')
  /\ (forall st p,
      stage_output image_dir T sky exif st f = Some p ->
      if writes_final st
      then p = OUTPUT_DIR // (PathOps.name image_dir ++ "_pano.jpg")
      else PathOps.parent p = TEMP_DIR)
  /\ (forall st1 st2 p,
      stage_output image_dir T sky exif st1 f = Some p ->
      stage_output image_dir T sky exif st2 f = Some p ->
      st1 = st2
      \/ (writes_project st1 = true /\ writes_project st2 = true /\ p = pto)
      \/ (writes_final st1 = true /\ writes_final st2 = true /\ p = final image_dir)).
Proof.
  repeat split.
  - intros [] * H; try discriminate H; reflexivity.
  - intros [] *; reflexivity.
  - intros [] p H; cbv in H; inversion H; reflexivity.
  - intros st1 st2 p H1 H2.
    destruct st1; cbv in H1; inversion H1; subst p; clear H1;
      destruct st2; cbv in H2; try discriminate H2;
      solve [ left; reflexivity
            | right; left; repeat split
            | right; right; repeat split ].
Qed.

Lemma stage_outputs_witness :
  stage_output ["drone_shots"] linux_tools (skyfill_exe linux) (usr_bin // "exiftool")
               Resize linux_fs
  = stage_output ["beach"] linux_tools (skyfill_exe darwin) [] Resize []
  /\ PathOps.parent resized = TEMP_DIR
  /\ (ProjectGeneration = CanvasSize
      \/ (writes_project ProjectGeneration = true /\ writes_project CanvasSize = true /\ pto = pto)
      \/ (writes_final ProjectGeneration = true /\ writes_final CanvasSize = true
          /\ pto = final ["drone_shots"])).
Proof.
  destruct (stage_outputs ["drone_shots"] linux_tools (skyfill_exe linux) (usr_bin // "exiftool")
                          linux_fs) as (H1 & _ & H3 & H4).
  split; [apply (H1 Resize); reflexivity|].
  split; [exact (H3 Resize resized eq_refl)|].
  exact (H4 ProjectGeneration CanvasSize pto eq_refl eq_refl).
Defined.

(** ** C4: the metadata-editor fetcher *)

(** The sky-fill fetcher checks its result after the extraction, so what it
    returns is there. *)
Lemma ensure_skyfill_returns_existing (W : world) (s : state) (p : path) (s' : state) :
  ensure_skyfill W s = (Ok p, s') -> Fs.exists_ (fs s') p = true.
Proof.
  unfold ensure_skyfill. destruct (SKYFILL_URLS (system W)) as [url|]; [|discriminate].
  intros H.
  apply bind_inv in H as [(f & s0 & G & H)|(? & _ & N)]; [|discriminate N].
  injection G as <- <-.
  destruct (Fs.exists_ (fs s) (skyfill_exe W)) eqn:X.
  { injection H as <- <-. exact X. }
  apply bind_inv in H as [(u1 & s1 & _ & H)|(? & _ & N)]; [|discriminate N].
  apply bind_inv in H as [(u2 & s2 & _ & H)|(? & _ & N)]; [|discriminate N].
  apply bind_inv in H as [(content & s3 & _ & H)|(? & _ & N)]; [|discriminate N].
  apply bind_inv in H as [(u4 & s4 & _ & H)|(? & _ & N)]; [|discriminate N].
  apply bind_inv in H as [(u5 & s5 & _ & H)|(? & _ & N)]; [|discriminate N].
  apply bind_inv in H as [(f6 & s6 & G & H)|(? & _ & N)]; [|discriminate N].
  injection G as <- <-.
  apply bind_inv in H as [(u7 & s7 & G & H)|(? & _ & N)]; [|discriminate N].
  destruct (Fs.exists_ (fs s5) (skyfill_exe W)) eqn:X6; [|discriminate G].
  injection G as _ <-.
  apply bind_inv in H as [(u8 & s8 & G & H)|(? & _ & N)]; [|discriminate N].
  injection H as <- <-.
  destruct (windows W); cbn [negb when] in G.
  - injection G as _ <-. exact X6.
  - unfold fs_op, Fs.chmod_exec in G.
    destruct (Fs.kind_of (fs s5) (skyfill_exe W)) as [[b|]|] eqn:K; try discriminate G;
      injection G as _ <-; cbn [fs]; [|exact X6].
    now apply exists_put.
Qed.

(** C4: the code at the failing input.  The archive unpacks to one folder
    whose only executable is named neither exiftool.exe nor
    exiftool(-k).exe.  The recovery moves the folder's files up and stops
    there: the fetcher returns tools/exiftool/exiftool.exe, which does not
    exist. *)
Theorem ensure_exiftool_returns_missing_path :
  fst (ensure_exiftool windows_pc (start windows_fs_fresh)) = Ok exiftool_exe /\
  Fs.exists_ (fs (snd (ensure_exiftool windows_pc (start windows_fs_fresh)))) exiftool_exe
  = false /\
  Fs.exists_ (fs (snd (ensure_exiftool windows_pc (start windows_fs_fresh))))
             (exiftool_dir // "exiftool-13.45_64.exe") = true.
Proof. vm_compute. repeat split. Qed.

(** ** C5: the tool locator *)

Lemma which_sound (W : world) (name : string) (f : FS) (p : path) :
  which W name f = Some p -> Fs.is_exec_file f p = true.
Proof. unfold which. intros H. now apply find_some in H. Qed.

Lemma is_exec_file_exists (f : FS) (p : path) :
  Fs.is_exec_file f p = true -> Fs.exists_ f p = true.
Proof.
  unfold Fs.is_exec_file, Fs.exists_.
  destruct (Fs.kind_of f p) as [[[]|]|]; easy.
Qed.

Lemma find_tool_cases (W : world) (name : string) (s : state) :
  (exists p,
      find_tool W name s = (Ok p, mkState (fs s) (trace s ++ [ELookup name]))
      /\ Fs.exists_ (fs s) p = true /\ tool_origin W name (fs s) p)
  \/ find_tool W name s
     = (Err (SystemExit 1),
        mkState (fs s) ((trace s ++ [ELookup name]) ++ [EPrint (fail_line (tool_not_found name))])).
Proof.
  unfold find_tool, bind, log, get_fs; cbn [fs trace].
  assert (Hfb :
    (exists p,
        match which W name (fs s) with
        | Some found => ret found
        | None => fail (tool_not_found name)
        end (mkState (fs s) (trace s ++ [ELookup name]))
        = (Ok p, mkState (fs s) (trace s ++ [ELookup name]))
        /\ Fs.exists_ (fs s) p = true /\ tool_origin W name (fs s) p)
    \/ match which W name (fs s) with
       | Some found => ret found
       | None => fail (tool_not_found name)
       end (mkState (fs s) (trace s ++ [ELookup name]))
       = (Err (SystemExit 1),
          mkState (fs s)
                  ((trace s ++ [ELookup name]) ++ [EPrint (fail_line (tool_not_found name))]))).
  { destruct (which W name (fs s)) as [found|] eqn:E.
    - left. exists found. split; [reflexivity|].
      pose proof (which_sound _ _ _ _ E) as X.
      split; [now apply is_exec_file_exists | left; exact X].
    - right. reflexivity. }
  unfold tool_not_found in Hfb.
  destruct (HUGIN_BIN (system W)) as [hugin|] eqn:Hb; [|exact Hfb].
  destruct (Fs.exists_ (fs s) hugin); [|exact Hfb].
  destruct (Fs.exists_ (fs s) (hugin // (if windows W then (name ++ ".exe")%string else name)))
    eqn:E; [|exact Hfb].
  left. eexists. split; [reflexivity|]. split; [exact E|].
  right. exists hugin. split; [exact Hb | reflexivity].
Qed.

Ltac tidy_runs :=
  cbn [fs trace fst snd]; repeat rewrite runs_app; cbn [runs filter is_run];
  repeat rewrite app_nil_r; repeat rewrite <- app_assoc; try reflexivity.

Lemma locate_tools_spec (W : world) (s : state) (r : result tools) (s' : state) :
  locate_tools W s = (r, s') ->
  fs s' = fs s /\ runs (trace s') = runs (trace s) /\
  match r with
  | Ok T => tools_exist (fs s) T /\ Fs.is_exec_file (fs s) (magick T) = true
  | Err e =>
      e = SystemExit 1 /\
      exists t msg, trace s' = t ++ [EPrint (fail_line msg)] /\
                    (msg = imagemagick_not_found \/ exists name, msg = tool_not_found name)
  end.
Proof.
  unfold locate_tools. intros H.
  repeat
    (match type of H with
     | bind (find_tool W ?n) _ ?st = _ =>
         let p := fresh "p" in
         let E := fresh "E" in
         let X := fresh "X" in
         unfold bind at 1 in H;
         destruct (find_tool_cases W n st) as [(p & E & X & _) | E];
         rewrite E in H; cbv beta iota in H; cbn [fs trace] in H;
         [ cbn [fs trace] in X
         | injection H as <- <-; split; [reflexivity|]; split; [tidy_runs|];
           split; [reflexivity|]; eexists; exists (tool_not_found n);
           split; [reflexivity | right; eexists; reflexivity] ]
     end).
  unfold bind, log, get_fs in H; cbn [fs trace] in H.
  destruct (which W "magick" (fs s)) as [found|] eqn:Hm.
  - injection H as <- <-. split; [reflexivity|]. split; [tidy_runs|].
    pose proof (which_sound _ _ _ _ Hm) as Hx.
    split; [|exact Hx].
    repeat split; try assumption. now apply is_exec_file_exists.
  - injection H as <- <-. split; [reflexivity|]. split; [tidy_runs|].
    split; [reflexivity|]. eexists; exists imagemagick_not_found.
    split; [reflexivity | left; reflexivity].
Qed.

(** C5, as stated, fails twice.  A hit in the fixed installation directory
    is only checked for existence, so a directory under the tool's name is
    returned; and the message for a missing [magick] speaks of ImageMagick
    and does not contain the tool's name. *)
Lemma tool_locator_loose_ends :
  (fst (find_tool windows_pc "nona" (start windows_fs_odd)) = Ok (hugin_bin_win // "nona.exe")
   /\ Fs.is_file windows_fs_odd (hugin_bin_win // "nona.exe") = false)
  /\
  (fst (locate_tools linux (start linux_fs_no_magick)) = Err (SystemExit 1)
   /\ last (trace (snd (locate_tools linux (start linux_fs_no_magick)))) (EPrint "")
      = EPrint (fail_line "ImageMagick not found in PATH")
   /\ Str.contains "magick" (fail_line "ImageMagick not found in PATH") = false).
Proof. vm_compute. repeat split. Qed.

(** Whether [find_tool] finds a tool depends on the file system only. *)
Lemma find_tool_fst (W : world) (name : string) (s1 s2 : state) :
  fs s1 = fs s2 -> fst (find_tool W name s1) = fst (find_tool W name s2).
Proof.
  intros E. unfold find_tool, bind, log, get_fs, fail, ret. cbv zeta. cbn [fs trace].
  rewrite E.
  destruct (which W name (fs s2)); destruct (HUGIN_BIN (system W)) as [h|]; try reflexivity;
    destruct (Fs.exists_ (fs s2) h); try reflexivity;
    destruct (Fs.exists_ (fs s2) _); reflexivity.
Qed.

(** Which tool a failed step 2 has missed, and with which message. *)
Lemma locate_tools_outcome (W : world) (s : state) (r : result tools) (s' : state) :
  locate_tools W s = (r, s') ->
  match r with
  | Ok T =>
      which W "magick" (fs s) = Some (magick T)
      /\ forall name, In name panorama_tools -> succeeded (fst (find_tool W name s)) = true
  | Err e =>
      exists t msg,
        trace s' = t ++ [EPrint (fail_line msg)]
        /\ ((msg = imagemagick_not_found
             /\ which W "magick" (fs s) = None
             /\ forall name, In name panorama_tools ->
                             succeeded (fst (find_tool W name s)) = true)
            \/ (exists name, In name panorama_tools
                             /\ msg = tool_not_found name
                             /\ fst (find_tool W name s) = Err (SystemExit 1)))
  end.
Proof.
  unfold locate_tools. intros H.
  repeat
    (match type of H with
     | bind (find_tool W ?n) _ ?st = _ =>
         let p := fresh "p" in
         let E := fresh "E" in
         let S0 := fresh "S" in
         unfold bind at 1 in H;
         assert (S0 : fst (find_tool W n st) = fst (find_tool W n s))
           by (apply find_tool_fst; reflexivity);
         destruct (find_tool_cases W n st) as [(p & E & _) | E];
         rewrite E in H; rewrite E in S0 at 1; cbn [fst] in S0;
         cbv beta iota in H; cbn [fs trace] in H;
         [ | injection H as <- <-; eexists; exists (tool_not_found n);
             split; [reflexivity|]; right; exists n;
             split; [unfold panorama_tools; cbn; tauto|];
             split; [reflexivity | symmetry; exact S0] ]
     end).
  assert (All : forall name, In name panorama_tools ->
                             succeeded (fst (find_tool W name s)) = true).
  { intros name Hin. unfold panorama_tools in Hin. cbn in Hin.
    repeat (destruct Hin as [<-|Hin]);
      try contradiction;
      match goal with
      | Hx : Ok _ = fst (find_tool W ?n s) |- succeeded (fst (find_tool W ?n s)) = true =>
          rewrite <- Hx; reflexivity
      end. }
  unfold bind, log, get_fs, fail, ret in H; cbn [fs trace] in H.
  destruct (which W "magick" (fs s)) as [found|] eqn:Hm; injection H as <- <-.
  - split; [reflexivity | exact All].
  - eexists; exists imagemagick_not_found. split; [reflexivity|]. left. auto.
Qed.

(** C5, amended. For every tool name, [find_tool] either returns a path
    that exists in the file system (an executable regular file when it
    comes from the search path, merely an existing entry when it comes from
    the fixed installation directory) or ends the run with status 1 after
    printing a message that contains the name.  Resolving the whole tool
    table either yields seven existing paths, the one of [magick] being the
    executable regular file found on the search path, or ends the run with
    status 1 and a missing-tool message: the message of [find_tool] for the
    panorama tool that [find_tool] did not find, or, when the six panorama
    tools are found and [magick] is not on the search path, the line
    "ImageMagick not found in PATH".  The lookups change no file and start
    no process, and when one fails the whole run ends there: no pipeline
    stage has been invoked. *)
Theorem tool_locator_result (W : world) (s : state) :
  (forall name,
      (exists p,
          find_tool W name s = (Ok p, mkState (fs s) (trace s ++ [ELookup name]))
          /\ Fs.exists_ (fs s) p = true /\ tool_origin W name (fs s) p)
      \/ (find_tool W name s
          = (Err (SystemExit 1),
             mkState (fs s)
                     ((trace s ++ [ELookup name]) ++ [EPrint (fail_line (tool_not_found name))]))
          /\ Str.contains name (fail_line (tool_not_found name)) = true))
  /\ (forall T s',
      locate_tools W s = (Ok T, s') ->
      fs s' = fs s /\ runs (trace s') = runs (trace s)
      /\ tools_exist (fs s) T /\ Fs.is_exec_file (fs s) (magick T) = true
      /\ which W "magick" (fs s) = Some (magick T))
  /\ (forall e s',
      locate_tools W s = (Err e, s') ->
      e = SystemExit 1 /\ fs s' = fs s /\ runs (trace s') = runs (trace s)
      /\ exists t msg,
          trace s' = t ++ [EPrint (fail_line msg)]
          /\ ((msg = imagemagick_not_found
               /\ which W "magick" (fs s) = None
               /\ forall name, In name panorama_tools ->
                               succeeded (fst (find_tool W name s)) = true)
              \/ (exists name, In name panorama_tools
                               /\ msg = tool_not_found name
                               /\ fst (find_tool W name s) = Err (SystemExit 1))))
  /\ ((forall name, In name panorama_tools -> succeeded (fst (find_tool W name s)) = true) ->
      which W "magick" (fs s) = None ->
      exists t,
        locate_tools W s
        = (Err (SystemExit 1),
           mkState (fs s) (t ++ [EPrint (fail_line "ImageMagick not found in PATH")])))
  /\ (forall images debug_skip e s',
      Fs.is_dir (fs s) images = true ->
      locate_tools W (mkState (fs s) (trace s ++ [EPrint "🔍 Locating required tools..."]))
      = (Err e, s') ->
      main W images debug_skip s = (Err e, s') /\ runs (trace s') = runs (trace s)).
Proof.
  repeat apply conj.
  - intros name. destruct (find_tool_cases W name s) as [H|H]; [left; exact H|right].
    split; [exact H|].
    unfold fail_line, tool_not_found.
    change (Str.nl ++ "❌ " ++ "Tool '" ++ name ++ "' not found in Hugin directory or PATH")%string
      with ((Str.nl ++ "❌ Tool '") ++ name ++ "' not found in Hugin directory or PATH")%string.
    apply contains_app.
  - intros T s' H. pose proof (locate_tools_outcome _ _ _ _ H) as [Hm _].
    apply locate_tools_spec in H as (H1 & H2 & H3 & H4). auto.
  - intros e s' H. pose proof (locate_tools_outcome _ _ _ _ H) as Ho.
    apply locate_tools_spec in H as (H1 & H2 & H3 & _). auto.
  - intros Hall Hm. destruct (locate_tools W s) as [[T|e] s'] eqn:E.
    + apply locate_tools_outcome in E as [E _]. rewrite Hm in E. discriminate E.
    + pose proof (locate_tools_spec _ _ _ _ E) as (F & _ & He & _).
      pose proof (locate_tools_outcome _ _ _ _ E)
        as (t & msg & Ht & [(-> & _)|(name & Hin & _ & Hf)]).
      * exists t. destruct s' as [f' tr']. cbn [fs trace] in F, Ht. now subst.
      * specialize (Hall name Hin). rewrite Hf in Hall. discriminate Hall.
  - intros images debug_skip e s' Hd H.
    split.
    + unfold main, bind, get_fs, when, print, log. rewrite Hd. cbn [negb ret].
      rewrite H. reflexivity.
    + apply locate_tools_spec in H as (_ & H2 & _). rewrite H2. tidy_runs.
Qed.

Lemma tool_locator_result_witness :
  Fs.is_dir linux_fs_no_magick ["drone_shots"] = true /\
  fst (main linux ["drone_shots"] false (start linux_fs_no_magick)) = Err (SystemExit 1) /\
  runs (trace (snd (main linux ["drone_shots"] false (start linux_fs_no_magick)))) = [] /\
  tools_exist linux_fs linux_tools /\
  which linux "magick" linux_fs_no_magick = None /\
  exists t,
    locate_tools linux (start linux_fs_no_magick)
    = (Err (SystemExit 1),
       mkState linux_fs_no_magick (t ++ [EPrint (fail_line "ImageMagick not found in PATH")])).
Proof.
  destruct (tool_locator_result linux (start linux_fs_no_magick)) as (_ & _ & _ & H4 & H5).
  destruct (tool_locator_result linux (start linux_fs)) as (_ & H2 & _).
  split; [reflexivity|].
  destruct (locate_tools linux (mkState linux_fs_no_magick [EPrint "🔍 Locating required tools..."]))
    as [[T|e] s'] eqn:E.
  - vm_compute in E. discriminate E.
  - destruct (H5 ["drone_shots"] false e s' eq_refl E) as [Hm Hr].
    rewrite Hm. cbn [fst snd]. vm_compute in E. injection E as <- <-.
    split; [reflexivity|]. split; [exact Hr|].
    split.
    + destruct (locate_tools linux (start linux_fs)) as [[T|e] s'] eqn:E.
      * destruct (H2 T s' eq_refl) as (_ & _ & Ht & _).
        vm_compute in E. injection E as <- <-. exact Ht.
      * vm_compute in E. discriminate E.
    + split; [reflexivity|].
      apply H4; [|reflexivity].
      intros name Hin. unfold panorama_tools in Hin. cbn in Hin.
      repeat (destruct Hin as [<-|Hin]); try contradiction; reflexivity.
Defined.

(** ** C9: what the cleanup leaves alone *)

Lemma outside_temp_if (top : string) (p : path) :
  String.eqb "temp" top = false ->
  PathOps.is_prefix [top] p = true -> PathOps.is_prefix TEMP_DIR p = false.
Proof.
  intros Ht. destruct p as [|x p]; cbn [PathOps.is_prefix]; [discriminate|].
  intros H. apply andb_true_iff in H as [H _]. apply String.eqb_eq in H. subst x.
  unfold TEMP_DIR. cbn [PathOps.is_prefix]. now rewrite Ht.
Qed.

(** C9. The cleanup removes only what lies under temp/: every path outside
    it, so every path under tools/ and under output/ and in particular the
    final image output/<input-folder-name>_pano.jpg, is after the cleanup
    what it was before, and after a successful cleanup the listing is the
    old one without the entries of temp/. *)
Theorem cleanup_touches_only_temp
    (W : world) (image_dir : path) (s : state) (r : result unit) (s' : state) :
  cleanup W image_dir s = (r, s') ->
  (forall p, PathOps.is_prefix TEMP_DIR p = false ->
             Fs.kind_of (fs s') p = Fs.kind_of (fs s) p)
  /\ (forall p, PathOps.is_prefix TOOLS_DIR p = true \/ PathOps.is_prefix OUTPUT_DIR p = true ->
                Fs.kind_of (fs s') p = Fs.kind_of (fs s) p)
  /\ Fs.kind_of (fs s') (final image_dir) = Fs.kind_of (fs s) (final image_dir)
  /\ (r = Ok tt -> fs s' = filter outside_temp (fs s)).
Proof.
  intros H.
  assert (Hfs : fs s' = fs s \/ fs s' = filter outside_temp (fs s)).
  { unfold cleanup, bind, fs_op, print, log in H.
    destruct (Fs.rmtree TEMP_DIR (fs s)) as [f'|e] eqn:E.
    - apply temp_gone_after_rmtree in E as [-> _].
      injection H as _ <-. right. reflexivity.
    - injection H as _ <-. left. reflexivity. }
  assert (Hout : forall p, PathOps.is_prefix TEMP_DIR p = false ->
                           Fs.kind_of (fs s') p = Fs.kind_of (fs s) p).
  { intros p Hp. destruct Hfs as [->| ->]; [reflexivity|].
    apply kind_of_filter. intros e <-. unfold outside_temp. now rewrite Hp. }
  repeat apply conj.
  - exact Hout.
  - intros p [Hp|Hp]; apply Hout; eapply outside_temp_if; try exact Hp; reflexivity.
  - apply Hout. reflexivity.
  - intros ->. unfold cleanup, bind, fs_op, print, log in H.
    destruct (Fs.rmtree TEMP_DIR (fs s)) as [f'|e] eqn:E; [|discriminate H].
    apply temp_gone_after_rmtree in E as [-> _]. now injection H as <-.
Qed.

Lemma cleanup_touches_only_temp_witness :
  Fs.kind_of (fs (snd (cleanup linux ["drone_shots"] (start linux_fs_resumed))))
             (TOOLS_DIR // "skyfill" // "skyfill")
  = Some (File true)
  /\ Fs.exists_ (fs (snd (cleanup linux ["drone_shots"] (start linux_fs_resumed)))) OUTPUT_DIR
     = true.
Proof.
  destruct (cleanup linux ["drone_shots"] (start linux_fs_resumed)) as [r s'] eqn:E.
  destruct (cleanup_touches_only_temp linux ["drone_shots"] (start linux_fs_resumed) r s' E)
    as (_ & H & _).
  cbn [snd]. unfold Fs.exists_.
  rewrite (H (TOOLS_DIR // "skyfill" // "skyfill") (or_introl eq_refl)).
  rewrite (H OUTPUT_DIR (or_intror eq_refl)).
  split; reflexivity.
Defined.

(** ** C7: the temporary workspace after a run *)

Section Keeps.

Variable I : FS -> Prop.










End Keeps.



Lemma mkdir_keeps_exists (p q : path) (f f' : FS) :
  Fs.exists_ f q = true -> Fs.mkdir false true p f = Ok f' -> Fs.exists_ f' q = true.
Proof.
  intros H. unfold Fs.mkdir, Fs.mkdir1.
  destruct (Fs.is_dir f p); [intros E; now injection E as <-|].
  destruct (Fs.exists_ f p); [discriminate|].
  destruct (Fs.is_dir f (PathOps.parent p)).
  - intros E; injection E as <-. now apply exists_put.
  - destruct (Fs.exists_ f (PathOps.parent p)); discriminate.
Qed.


Section Workspace.

Variable W : world.
Variables (image_dir : path) (TOOLS : tools) (skyfill exiftool : path).
Hypothesis tools_behave : tools_leave_temp W.



End Workspace.

Lemma stages_then_cleanup (a b c d e : M unit) (s : state) :
  (a ;; b ;; c ;; d ;; e) s = ((a ;; b ;; c ;; d) ;; e) s.
Proof.
  unfold bind.
  destruct (a s) as [[?|?] s1]; [|reflexivity].
  destruct (b s1) as [[?|?] s2]; [|reflexivity].
  destruct (c s2) as [[?|?] s3]; reflexivity.
Qed.


Lemma pipeline_success
    (W : world) (image_dir : path) (TOOLS : tools) (skyfill exiftool : path)
    (debug_skip : bool) (s s' : state) :
  pipeline W image_dir TOOLS skyfill exiftool debug_skip s = (Ok tt, s') ->
  Fs.exists_ (fs s') TEMP_DIR = false.
Proof.
  intros H. unfold pipeline in H.
  apply bind_inv in H as [([] & s1 & _ & H)|(e & _ & N)]; [|discriminate N].
  apply bind_inv in H as [([] & s2 & _ & H)|(e & _ & N)]; [|discriminate N].
  rewrite stages_then_cleanup in H.
  apply bind_inv in H as [([] & s3 & _ & H)|(e & _ & N)]; [|discriminate N].
  unfold cleanup, bind, fs_op, print, log in H.
  destruct (Fs.rmtree TEMP_DIR (fs s3)) as [f'|e] eqn:E; [|discriminate H].
  apply temp_gone_after_rmtree in E as [_ E]. now injection H as <-.
Qed.

(** The whole script ends with the pipeline: a run that succeeds leaves no
    temp/ behind. *)
Lemma main_success_removes_temp (W : world) (images : path) (debug_skip : bool) (s s' : state) :
  main W images debug_skip s = (Ok tt, s') -> Fs.exists_ (fs s') TEMP_DIR = false.
Proof.
  intros H. unfold main in H.
  do 9 (apply bind_inv in H as [(? & ? & _ & H)|(? & _ & N)]; [|discriminate N]).
  eapply pipeline_success. exact H.
Qed.


Lemma studio_tools_leave_temp : tools_leave_temp linux.
Proof.
  intros cmd f H. cbn [exec linux snd studio_exec].
  destruct (dash_o cmd); [now apply exists_put|].
  destruct (last_path cmd); [|exact H].
  destruct (has_word "-extent" cmd); [now apply exists_put|].
  destruct (has_word "-out" cmd); [now apply exists_put | exact H].
Qed.



(** ** C10: a stale resized raster *)

Lemma resize_group_runs (W : world) (TOOLS : tools) (s : state) :
  runs (trace (snd (resize_group W TOOLS true s)))
  = runs (trace s) ++ (if Fs.exists_ (fs s) resized then [] else [ERun (magick_cmd TOOLS)]).
Proof.
  unfold resize_group, run, bind, get_fs, print, log; cbn [andb fs trace].
  destruct (Fs.exists_ (fs s) resized); [tidy_runs|].
  destruct (exec W (magick_cmd TOOLS) (fs s)) as [[] f']; tidy_runs.
Qed.

Lemma skyfill_stage_runs (W : world) (image_dir skyfill : path) (s : state) :
  runs (trace (snd (skyfill_stage W image_dir skyfill s)))
  = runs (trace s) ++ [ERun (skyfill_cmd skyfill)].
Proof.
  unfold skyfill_stage, run, bind, get_fs, print, log, when, fail, fs_op; cbn [fs trace].
  destruct (exec W (skyfill_cmd skyfill) (fs s)) as [[] f']; [|tidy_runs].
  cbn [fs trace]. destruct (Fs.exists_ f' skyfill_output); cbn [negb ret]; [|tidy_runs].
  cbn [fs trace].
  destruct (Fs.rename (windows W) skyfill_output (final image_dir) f'); tidy_runs.
Qed.

(** C10. With the skip flag set, whether the resize group runs its command
    is decided by the existence of temp/resized.jpg alone.  In particular,
    when resized.jpg exists and stitched.tif does not, the stitch group
    runs its six commands, the last of which writes temp/stitched.tif; if
    they succeed and resized.jpg is still there, the resize command is not
    run and the sky-fill tool is started on the old temp/resized.jpg. *)
Theorem stale_resized_is_reused
    (W : world) (image_dir : path) (TOOLS : tools) (skyfill : path) (s s1 : state) :
  Fs.exists_ (fs s) resized = true ->
  Fs.exists_ (fs s) stitched = false ->
  stitch_group W image_dir TOOLS true s = (Ok tt, s1) ->
  Fs.exists_ (fs s1) resized = true ->
  (forall s2, runs (trace (snd (resize_group W TOOLS true s2)))
              = runs (trace s2)
                ++ (if Fs.exists_ (fs s2) resized then [] else [ERun (magick_cmd TOOLS)]))
  /\ (exists f5,
      runs (trace s1)
      = runs (trace s)
        ++ [ERun (pto_gen_cmd image_dir TOOLS); ERun (cpfind_cmd TOOLS);
            ERun (autooptimiser_cmd TOOLS); ERun (pano_modify_cmd TOOLS);
            ERun (nona_cmd TOOLS); ERun (enblend_cmd TOOLS f5)]
      /\ dash_o (enblend_cmd TOOLS f5) = Some stitched)
  /\ resize_group W TOOLS true s1
     = (Ok tt, mkState (fs s1)
                 (trace s1 ++ [EPrint (Str.nl ++ "⏭️ Skipping resize (temp file exists)")]))
  /\ runs (trace (snd ((resize_group W TOOLS true ;; skyfill_stage W image_dir skyfill) s1)))
     = runs (trace s1) ++ [ERun (skyfill_cmd skyfill)]
  /\ last_path (skyfill_cmd skyfill) = Some resized.
Proof.
  intros Hres Hst Hrun Hkept.
  assert (Hskip : resize_group W TOOLS true s1
     = (Ok tt, mkState (fs s1)
                 (trace s1 ++ [EPrint (Str.nl ++ "⏭️ Skipping resize (temp file exists)")]))).
  { unfold resize_group, bind, get_fs. cbn [andb]. rewrite Hkept. reflexivity. }
  repeat apply conj.
  - intros s2. apply resize_group_runs.
  - unfold stitch_group, bind, get_fs in Hrun. cbn [andb] in Hrun. rewrite Hst in Hrun.
    unfold run, bind, print, log in Hrun. cbn [fs trace] in Hrun.
    destruct (exec W (pto_gen_cmd image_dir TOOLS) (fs s)) as [[] f1]; [|discriminate].
    cbn [fs trace] in Hrun.
    destruct (exec W (cpfind_cmd TOOLS) f1) as [[] f2]; [|discriminate].
    cbn [fs trace] in Hrun.
    destruct (exec W (autooptimiser_cmd TOOLS) f2) as [[] f3]; [|discriminate].
    cbn [fs trace] in Hrun.
    destruct (exec W (pano_modify_cmd TOOLS) f3) as [[] f4]; [|discriminate].
    cbn [fs trace] in Hrun.
    destruct (exec W (nona_cmd TOOLS) f4) as [[] f5]; [|discriminate].
    cbn [fs trace get_fs] in Hrun.
    destruct (exec W (enblend_cmd TOOLS f5) f5) as [[] f6]; [|discriminate].
    injection Hrun as <-. exists f5. split; [|reflexivity].
    cbn [trace]. repeat rewrite runs_app. cbn [runs filter is_run].
    repeat rewrite app_nil_r. repeat rewrite <- app_assoc. reflexivity.
  - exact Hskip.
  - unfold bind at 1. rewrite Hskip. rewrite skyfill_stage_runs. tidy_runs.
  - reflexivity.
Qed.

Lemma stale_resized_is_reused_witness :
  Fs.exists_ linux_fs_stale resized = true /\
  Fs.exists_ linux_fs_stale stitched = false /\
  exists s1,
    stitch_group linux ["drone_shots"] linux_tools true (start linux_fs_stale) = (Ok tt, s1)
    /\ Fs.exists_ (fs s1) resized = true
    /\ resize_group linux linux_tools true s1
       = (Ok tt, mkState (fs s1)
                   (trace s1 ++ [EPrint (Str.nl ++ "⏭️ Skipping resize (temp file exists)")])).
Proof.
  split; [reflexivity|]. split; [reflexivity|].
  eexists. split; [vm_compute; reflexivity|]. split; [reflexivity|].
  eapply (stale_resized_is_reused linux ["drone_shots"] linux_tools (skyfill_exe linux)
            (start linux_fs_stale)); [reflexivity | reflexivity | vm_compute; reflexivity
                                      | reflexivity].
Defined.

(** * Further properties of the script *)

(** ** Inversion of the primitive steps *)

Lemma fs_op_ok (g : FS -> result FS) (s : state) (u : unit) (s1 : state) :
  fs_op g s = (Ok u, s1) -> g (fs s) = Ok (fs s1) /\ trace s1 = trace s.
Proof.
  unfold fs_op. destruct (g (fs s)) as [f'|e]; [|discriminate].
  intros H. injection H as _ <-. split; reflexivity.
Qed.

Lemma urlretrieve_ok (W : world) (url : string) (archive : path) (s : state)
    (c : option (list (path * node))) (s1 : state) :
  urlretrieve W url archive s = (Ok c, s1) ->
  fs s1 = Fs.put archive (File false) (fs s)
  /\ trace s1 = trace s ++ [EDownload url]
  /\ match c with
     | Some entries => fetch W url = Archive entries
     | None => fetch W url = NotAnArchive
     end.
Proof.
  intros H. unfold urlretrieve, bind, log, get_fs, fs_op, raise in H; cbn [fs trace] in H.
  destruct (fetch W url); cbv beta iota in H; cbn [fs trace] in H;
    try destruct (Fs.is_dir (fs s) (PathOps.parent archive) && negb (Fs.is_dir (fs s) archive));
    cbv beta iota in H; cbn [fs trace] in H;
    try discriminate H; injection H as <- <-; repeat split.
Qed.

Lemma urlretrieve_err (W : world) (url : string) (archive : path) (s : state)
    (e : error) (s1 : state) :
  urlretrieve W url archive s = (Err e, s1) ->
  fs s1 = fs s /\ trace s1 = trace s ++ [EDownload url].
Proof.
  intros H. unfold urlretrieve, bind, log, get_fs, fs_op, raise in H; cbn [fs trace] in H.
  destruct (fetch W url); cbv beta iota in H; cbn [fs trace] in H;
    try destruct (Fs.is_dir (fs s) (PathOps.parent archive) && negb (Fs.is_dir (fs s) archive));
    cbv beta iota in H; cbn [fs trace] in H;
    try discriminate H; injection H as _ <-; split; reflexivity.
Qed.

Lemma fs_op_err (g : FS -> result FS) (s : state) (e : error) (s1 : state) :
  fs_op g s = (Err e, s1) -> s1 = s.
Proof.
  unfold fs_op. destruct (g (fs s)) as [f'|e']; [discriminate|].
  intros H. now injection H as _ <-.
Qed.

Lemma mkdir_skyfill_dir_frame (f f' : FS) (q : path) :
  Fs.mkdir true true skyfill_dir f = Ok f' ->
  q <> TOOLS_DIR -> q <> skyfill_dir -> Fs.kind_of f' q = Fs.kind_of f q.
Proof.
  intros H Q1 Q2. unfold Fs.mkdir in H.
  destruct (Fs.is_dir f skyfill_dir); [now injection H as <-|].
  change (PathOps.ancestors skyfill_dir) with [TOOLS_DIR] in H.
  cbn [fold_left] in H. unfold Fs.mkdir_ancestor in H.
  assert (M : forall g, Fs.mkdir1 skyfill_dir g = Ok f' -> Fs.kind_of f' q = Fs.kind_of g q).
  { intros g. unfold Fs.mkdir1.
    destruct (Fs.exists_ g skyfill_dir); [discriminate|].
    destruct (Fs.is_dir g (PathOps.parent skyfill_dir)).
    - intros E. injection E as <-. now apply kind_of_put_other.
    - destruct (Fs.exists_ g (PathOps.parent skyfill_dir)); discriminate. }
  destruct (Fs.is_dir f TOOLS_DIR); [now apply M|].
  destruct (Fs.exists_ f TOOLS_DIR); [discriminate|].
  apply M in H. rewrite H. now apply kind_of_put_other.
Qed.

Lemma skyfill_exe_is_deep (W : world) :
  skyfill_exe W <> TOOLS_DIR /\ skyfill_exe W <> skyfill_dir.
Proof. unfold skyfill_exe. destruct (windows W); split; discriminate. Qed.

Lemma unpack_ok (bad : string) (c : option (list (path * node))) (dir : path)
    (s : state) (u : unit) (s1 : state) :
  unpack bad c dir s = (Ok u, s1) ->
  exists entries, c = Some entries
                  /\ Fs.extractall dir entries (fs s) = Ok (fs s1) /\ trace s1 = trace s.
Proof.
  destruct c as [entries|]; [|discriminate]. intros H.
  apply fs_op_ok in H. exists entries. split; [reflexivity | exact H].
Qed.

Lemma unlink_removes (p : path) (f f' : FS) :
  p <> [] -> Fs.unlink p f = Ok f' -> Fs.kind_of f' p = None.
Proof.
  intros Hp. unfold Fs.unlink.
  destruct (Fs.kind_of f p) as [[]|]; try discriminate.
  intros H. injection H as <-. unfold Fs.remove, Fs.kind_of.
  destruct p as [|x p]; [contradiction|].
  rewrite find_filter_none; [reflexivity|].
  intros e He. now rewrite He.
Qed.

Lemma skyfill_archive_not_exe (W : world) (url : string) :
  SKYFILL_URLS (system W) = Some url ->
  skyfill_dir // PathOps.url_name url <> skyfill_exe W.
Proof.
  unfold SKYFILL_URLS, skyfill_exe, windows.
  destruct (String.eqb (system W) "Windows").
  - intros H. injection H as <-. discriminate.
  - destruct (String.eqb (system W) "Linux"); [|discriminate].
    intros H. injection H as <-. discriminate.
Qed.

(** What a download that ends well has gone through. *)
Lemma ensure_skyfill_download (W : world) (url : string) (s : state) (p : path) (s' : state) :
  SKYFILL_URLS (system W) = Some url ->
  Fs.exists_ (fs s) (skyfill_exe W) = false ->
  ensure_skyfill W s = (Ok p, s') ->
  p = skyfill_exe W
  /\ downloads (trace s') = downloads (trace s) ++ [EDownload url]
  /\ exists f5,
      Fs.kind_of f5 (skyfill_dir // PathOps.url_name url) = None
      /\ Fs.exists_ f5 (skyfill_exe W) = true
      /\ (if windows W then fs s' = f5 else Fs.chmod_exec (skyfill_exe W) f5 = Ok (fs s')).
Proof.
  intros Hurl Habs H. unfold ensure_skyfill in H. rewrite Hurl in H.
  unfold bind at 1 in H. unfold get_fs at 1 in H. rewrite Habs in H.
  apply bind_inv in H as [(u1 & s1 & G1 & H)|(? & _ & N)]; [|discriminate N].
  injection G1 as _ <-.
  apply bind_inv in H as [(u2 & s2 & G2 & H)|(? & _ & N)]; [|discriminate N].
  apply fs_op_ok in G2 as [_ T2]. cbn [fs trace] in T2.
  apply bind_inv in H as [(content & s3 & G3 & H)|(? & _ & N)]; [|discriminate N].
  apply urlretrieve_ok in G3 as (_ & T3 & _).
  (* the extraction, the removal of the archive, the probe *)
  apply bind_inv in H as [(u4 & s4 & G4 & H)|(? & _ & N)]; [|discriminate N].
  assert (T4 : trace s4 = trace s3).
  { destruct (String.eqb _ _) in G4; apply unpack_ok in G4 as (? & _ & _ & T); exact T. }
  apply bind_inv in H as [(u5 & s5 & G5 & H)|(? & _ & N)]; [|discriminate N].
  apply fs_op_ok in G5 as [G5 T5].
  apply unlink_removes in G5; [|discriminate].
  apply bind_inv in H as [(f6 & s6 & G6 & H)|(? & _ & N)]; [|discriminate N].
  injection G6 as <- <-.
  apply bind_inv in H as [(u7 & s7 & G7 & H)|(? & _ & N)]; [|discriminate N].
  destruct (Fs.exists_ (fs s5) (skyfill_exe W)) eqn:X; [|discriminate G7].
  injection G7 as _ <-.
  apply bind_inv in H as [(u8 & s8 & G8 & H)|(? & _ & N)]; [|discriminate N].
  injection H as <- <-.
  assert (T8 : trace s8 = trace s5).
  { destruct (windows W); cbn [negb when] in G8.
    - now injection G8 as _ <-.
    - now apply fs_op_ok in G8. }
  split; [reflexivity|]. split.
  - rewrite T8, T5, T4, T3, T2. rewrite !downloads_app. cbn. now rewrite app_nil_r.
  - exists (fs s5). split; [exact G5|]. split; [exact X|].
    destruct (windows W); cbn [negb when] in G8.
    + now injection G8 as _ <-.
    + now apply fs_op_ok in G8.
Qed.

(** ** The sky-fill fetcher after a download *)

(** X1. Whatever the sky-fill fetcher returns exists in the file system:
    after an extraction the expected executable is probed again before it
    is handed out. *)
Theorem skyfill_fetcher_returns_existing (W : world) (s : state) (p : path) (s' : state) :
  ensure_skyfill W s = (Ok p, s') ->
  p = skyfill_exe W /\ Fs.exists_ (fs s') p = true.
Proof.
  intros H. split; [|exact (ensure_skyfill_returns_existing W s p s' H)].
  unfold ensure_skyfill in H.
  destruct (SKYFILL_URLS (system W)) as [url|] eqn:Hurl; [|discriminate].
  destruct (Fs.exists_ (fs s) (skyfill_exe W)) eqn:X.
  - unfold bind, get_fs in H. rewrite X in H. now injection H as <-.
  - fold (ensure_skyfill W) in H.
    assert (H' : ensure_skyfill W s = (Ok p, s')).
    { unfold ensure_skyfill. rewrite Hurl. exact H. }
    exact (proj1 (ensure_skyfill_download W url s p s' Hurl X H')).
Qed.

Lemma skyfill_fetcher_returns_existing_witness :
  fst (ensure_skyfill linux_online (start linux_fs_first_run)) = Ok (skyfill_exe linux_online)
  /\ Fs.exists_ (fs (snd (ensure_skyfill linux_online (start linux_fs_first_run))))
                (skyfill_exe linux_online) = true.
Proof.
  destruct (ensure_skyfill linux_online (start linux_fs_first_run)) as [[p|e] s'] eqn:E.
  - destruct (skyfill_fetcher_returns_existing linux_online (start linux_fs_first_run) p s' E)
      as [-> H].
    split; [reflexivity | exact H].
  - vm_compute in E. discriminate E.
Defined.

(** X2. On a platform other than Windows, an executable that the fetcher
    had to download comes back with the execute permission set: if what it
    returns is a regular file, it is an executable one. *)
Theorem skyfill_fetcher_sets_execute_bit (W : world) (s : state) (p : path) (s' : state) :
  windows W = false ->
  Fs.exists_ (fs s) (skyfill_exe W) = false ->
  ensure_skyfill W s = (Ok p, s') ->
  Fs.is_exec_file (fs s') p = Fs.is_file (fs s') p.
Proof.
  intros Hw Habs H.
  destruct (SKYFILL_URLS (system W)) as [url|] eqn:Hurl.
  2:{ unfold ensure_skyfill in H. rewrite Hurl in H. discriminate H. }
  destruct (ensure_skyfill_download W url s p s' Hurl Habs H) as (-> & _ & f5 & _ & _ & C).
  rewrite Hw in C. unfold Fs.chmod_exec in C.
  unfold Fs.is_exec_file, Fs.is_file.
  destruct (Fs.kind_of f5 (skyfill_exe W)) as [[b|]|] eqn:K; try discriminate C;
    injection C as <-.
  - rewrite kind_of_put_same; [reflexivity|]. unfold skyfill_exe. now destruct (windows W).
  - now rewrite K.
Qed.

Lemma skyfill_fetcher_sets_execute_bit_witness :
  windows linux_online = false /\
  Fs.exists_ linux_fs_first_run (skyfill_exe linux_online) = false /\
  Fs.is_exec_file (fs (snd (ensure_skyfill linux_online (start linux_fs_first_run))))
                  (skyfill_exe linux_online) = true.
Proof.
  split; [reflexivity|]. split; [reflexivity|].
  destruct (ensure_skyfill linux_online (start linux_fs_first_run)) as [[p|e] s'] eqn:E.
  - pose proof (skyfill_fetcher_sets_execute_bit linux_online (start linux_fs_first_run) p s'
                  eq_refl eq_refl E) as H.
    vm_compute in E. injection E as <- <-.
    etransitivity; [exact H | reflexivity].
  - vm_compute in E. discriminate E.
Defined.

(** X3. A download that ends well made exactly one request, for the URL of
    the platform, and has removed the archive it fetched: the archive is
    not left in tools/skyfill/. *)
Theorem skyfill_archive_is_deleted (W : world) (url : string) (s : state) (p : path) (s' : state) :
  SKYFILL_URLS (system W) = Some url ->
  Fs.exists_ (fs s) (skyfill_exe W) = false ->
  ensure_skyfill W s = (Ok p, s') ->
  downloads (trace s') = downloads (trace s) ++ [EDownload url]
  /\ Fs.exists_ (fs s') (skyfill_dir // PathOps.url_name url) = false.
Proof.
  intros Hurl Habs H.
  destruct (ensure_skyfill_download W url s p s' Hurl Habs H) as (_ & D & f5 & A & _ & C).
  split; [exact D|]. unfold Fs.exists_.
  destruct (windows W).
  - rewrite C, A. reflexivity.
  - unfold Fs.chmod_exec in C.
    destruct (Fs.kind_of f5 (skyfill_exe W)) as [[b|]|]; try discriminate C;
      injection C as <-; [|now rewrite A].
    rewrite kind_of_put_other, A; [reflexivity|].
    now apply skyfill_archive_not_exe.
Qed.

Lemma skyfill_archive_is_deleted_witness :
  SKYFILL_URLS (system linux_online)
  = Some "https://stuvelfoto.nl/downloads/skyfill/skyfill-v1.6-linux.tar.gz" /\
  Fs.exists_ (fs (snd (ensure_skyfill linux_online (start linux_fs_first_run))))
             (skyfill_dir // "skyfill-v1.6-linux.tar.gz") = false.
Proof.
  split; [reflexivity|].
  destruct (ensure_skyfill linux_online (start linux_fs_first_run)) as [[p|e] s'] eqn:E.
  - exact (proj2 (skyfill_archive_is_deleted linux_online _ (start linux_fs_first_run) p s'
                    eq_refl eq_refl E)).
  - vm_compute in E. discriminate E.
Defined.

(** X4. When the URL delivers nothing, or something that is not an
    archive, the fetcher ends in an error after at most one request (there
    is no retry) and the expected executable is still absent, so the next
    run will try the download again. *)
Theorem failed_download_leaves_no_executable
    (W : world) (url : string) (s : state) (r : result path) (s' : state) :
  SKYFILL_URLS (system W) = Some url ->
  Fs.exists_ (fs s) (skyfill_exe W) = false ->
  (forall entries, fetch W url <> Archive entries) ->
  ensure_skyfill W s = (r, s') ->
  succeeded r = false
  /\ Fs.exists_ (fs s') (skyfill_exe W) = false
  /\ (List.length (downloads (trace s')) <= List.length (downloads (trace s)) + 1)%nat.
Proof.
  intros Hurl Habs Hf H. unfold ensure_skyfill in H. rewrite Hurl in H.
  unfold bind at 1 in H. unfold get_fs at 1 in H. rewrite Habs in H.
  destruct (skyfill_exe_is_deep W) as [D1 D2].
  apply bind_inv in H as [(u1 & s1 & G1 & H)|(? & G1 & _)]; [|discriminate G1].
  injection G1 as _ <-.
  apply bind_inv in H as [(u2 & s2 & G2 & H)|(e & G2 & ->)].
  2:{ apply fs_op_err in G2 as ->. cbn [fs trace succeeded].
      rewrite downloads_app, app_nil_r. repeat split; [exact Habs | lia]. }
  apply fs_op_ok in G2 as [M T2]. cbn [fs trace] in M, T2.
  assert (A2 : Fs.exists_ (fs s2) (skyfill_exe W) = false).
  { unfold Fs.exists_. rewrite (mkdir_skyfill_dir_frame _ _ _ M D1 D2). exact Habs. }
  assert (L2 : downloads (trace s2) = downloads (trace s)).
  { rewrite T2, downloads_app. apply app_nil_r. }
  apply bind_inv in H as [(c & s3 & G3 & H)|(e & G3 & ->)].
  2:{ apply urlretrieve_err in G3 as [F3 T3]. rewrite F3, T3, downloads_app, length_app, L2.
      repeat split; [exact A2 | cbn; lia]. }
  apply urlretrieve_ok in G3 as (F3 & T3 & C3).
  destruct c as [entries|]; [now apply Hf in C3|].
  assert (E : r = Err (Uncaught (if String.eqb (PathOps.suffix (skyfill_dir // PathOps.url_name url)) ".zip"
                                 then "BadZipFile" else "ReadError")) /\ s' = s3).
  { unfold bind, unpack, raise in H.
    destruct (String.eqb (PathOps.suffix (skyfill_dir // PathOps.url_name url)) ".zip");
      injection H as <- <-; split; reflexivity. }
  destruct E as [-> ->].
  rewrite F3, T3, downloads_app, length_app, L2. repeat split; [|cbn; lia].
  unfold Fs.exists_. rewrite kind_of_put_other; [exact A2|].
  intros Q. symmetry in Q. revert Q. now apply skyfill_archive_not_exe.
Qed.

Lemma failed_download_leaves_no_executable_witness :
  Fs.exists_ (fs (snd (ensure_skyfill linux_captive (start linux_fs_first_run))))
             (skyfill_exe linux_captive) = false
  /\ succeeded (fst (ensure_skyfill linux (start linux_fs_first_run))) = false.
Proof.
  split.
  - refine (proj1 (proj2 (failed_download_leaves_no_executable linux_captive _
                            (start linux_fs_first_run) _ _ eq_refl eq_refl _
                            (surjective_pairing _)))).
    intros entries. discriminate.
  - refine (proj1 (failed_download_leaves_no_executable linux _
                     (start linux_fs_first_run) _ _ eq_refl eq_refl _
                     (surjective_pairing _))).
    intros entries. discriminate.
Defined.

(** ** The metadata-editor fetcher without a download *)

(** X5. The metadata-editor fetcher downloads only on Windows and only when
    tools/exiftool/exiftool.exe is absent.  Otherwise it changes no file
    and makes no request: on Windows it returns the local copy
    tools/exiftool/exiftool.exe; elsewhere it returns what the search path
    gives for [exiftool], an executable regular file, or, when the search
    path gives nothing, it ends the run with status 1 after printing the
    hint to install the package. *)
Theorem exiftool_fetcher_without_download (W : world) (s : state) :
  windows W = false \/ Fs.exists_ (fs s) exiftool_exe = true ->
  fs (snd (ensure_exiftool W s)) = fs s
  /\ downloads (trace (snd (ensure_exiftool W s))) = downloads (trace s)
  /\ match fst (ensure_exiftool W s) with
     | Ok p => Fs.exists_ (fs s) p = true
     | Err e => e = SystemExit 1
     end
  /\ (windows W = true ->
      ensure_exiftool W s = (Ok exiftool_exe, s))
  /\ (windows W = false ->
      match which W "exiftool" (fs s) with
      | Some found =>
          ensure_exiftool W s
          = (Ok found, mkState (fs s) (trace s ++ [ELookup "exiftool"]))
          /\ Fs.is_exec_file (fs s) found = true
      | None =>
          ensure_exiftool W s
          = (Err (SystemExit 1),
             mkState (fs s)
               ((trace s ++ [ELookup "exiftool"])
                ++ [EPrint (fail_line "ExifTool not found. Please install it using your package manager (e.g., 'sudo apt install libimage-exiftool-perl')")]))
      end).
Proof.
  intros H. unfold ensure_exiftool.
  destruct (windows W) eqn:Hw.
  - destruct H as [H|H]; [discriminate H|].
    unfold bind, get_fs. rewrite H. cbn.
    split; [reflexivity|]. split; [reflexivity|]. split; [exact H|].
    split; [reflexivity | discriminate].
  - unfold bind, log, get_fs, fail, ret. cbn [fs trace].
    destruct (which W "exiftool" (fs s)) as [found|] eqn:Hf; cbn [fst snd fs trace];
      rewrite ?downloads_app; cbn [downloads filter is_download]; rewrite ?app_nil_r.
    + pose proof (which_sound _ _ _ _ Hf) as X.
      split; [reflexivity|]. split; [reflexivity|].
      split; [now apply is_exec_file_exists|].
      split; [discriminate|]. intros _. split; [reflexivity | exact X].
    + split; [reflexivity|]. split; [reflexivity|]. split; [reflexivity|].
      split; [discriminate | reflexivity].
Qed.

Lemma exiftool_fetcher_without_download_witness :
  windows linux = false /\
  ensure_exiftool linux (start linux_fs)
  = (Ok (usr_bin // "exiftool"), mkState linux_fs [ELookup "exiftool"]) /\
  downloads (trace (snd (ensure_exiftool linux (start linux_fs)))) = [] /\
  windows windows_idle = true /\
  Fs.exists_ [(exiftool_exe, File false)] exiftool_exe = true /\
  ensure_exiftool windows_idle (start [(exiftool_exe, File false)])
  = (Ok exiftool_exe, start [(exiftool_exe, File false)]).
Proof.
  destruct (exiftool_fetcher_without_download linux (start linux_fs) (or_introl eq_refl))
    as (_ & D & _ & _ & L).
  destruct (exiftool_fetcher_without_download windows_idle (start [(exiftool_exe, File false)])
              (or_intror eq_refl))
    as (_ & _ & _ & Wn & _).
  split; [reflexivity|].
  split; [exact (proj1 (L eq_refl))|].
  split; [exact D|].
  split; [reflexivity|]. split; [reflexivity|].
  exact (Wn eq_refl).
Defined.

(** ** What the steps leave out of the trace *)

Section Silent.

Variable phi : event -> bool.
Hypothesis phi_print : forall l, phi (EPrint l) = false.

Lemma silent_ret {X} (a : X) : silent phi (ret a).
Proof. intros s r s' E. now injection E as _ <-. Qed.

Lemma silent_bind {X Y} (m : M X) (k : X -> M Y) :
  silent phi m -> (forall a, silent phi (k a)) -> silent phi (bind m k).
Proof.
  intros Hm Hk s r s' E.
  apply bind_inv in E as [(a & s1 & E1 & E2)|(e & E1 & _)].
  - rewrite (Hk _ _ _ _ E2). eapply Hm; eassumption.
  - eapply Hm; eassumption.
Qed.

Lemma silent_log (e : event) : phi e = false -> silent phi (log e).
Proof.
  intros He s r s' E. injection E as _ <-. cbn [trace].
  rewrite filter_app. cbn [filter]. rewrite He. apply app_nil_r.
Qed.

Lemma silent_print (l : string) : silent phi (print l).
Proof. apply silent_log, phi_print. Qed.

Lemma silent_fail {X} (msg : string) : silent phi (@fail X msg).
Proof.
  intros s r s' E. injection E as _ <-. cbn [trace].
  rewrite filter_app. cbn [filter]. rewrite phi_print. apply app_nil_r.
Qed.

Lemma silent_raise {X} (exn : string) : silent phi (@raise X exn).
Proof. intros s r s' E. now injection E as _ <-. Qed.

Lemma silent_get_fs : silent phi get_fs.
Proof. intros s r s' E. now injection E as _ <-. Qed.

Lemma silent_when (b : bool) (m : M unit) : silent phi m -> silent phi (when b m).
Proof. destruct b; [easy | intros _; apply silent_ret]. Qed.

Lemma silent_fs_op (g : FS -> result FS) : silent phi (fs_op g).
Proof.
  intros s r s' E. unfold fs_op in E.
  destruct (g (fs s)); now injection E as _ <-.
Qed.

Lemma silent_run (W : world) (cmd : list arg) :
  phi (ERun cmd) = false -> silent phi (run W cmd).
Proof.
  intros Hc. unfold run.
  apply silent_bind; [apply silent_print|intros _].
  apply silent_bind; [now apply silent_log|intros _].
  intros s r s' E. destruct (exec W cmd (fs s)) as [[] f']; now injection E as _ <-.
Qed.

Lemma silent_urlretrieve (W : world) (url : string) (archive : path) :
  phi (EDownload url) = false -> silent phi (urlretrieve W url archive).
Proof.
  intros Hd. unfold urlretrieve.
  apply silent_bind; [now apply silent_log|intros _].
  destruct (fetch W url); [apply silent_raise| |];
    (apply silent_bind; [apply silent_get_fs|intros f];
     destruct (_ && _); [|apply silent_raise];
     apply silent_bind; [apply silent_fs_op|intros _; apply silent_ret]).
Qed.

Lemma silent_unpack (bad : string) (c : option (list (path * node))) (dir : path) :
  silent phi (unpack bad c dir).
Proof. destruct c; [apply silent_fs_op | apply silent_raise]. Qed.

Lemma silent_find_tool (W : world) (name : string) :
  phi (ELookup name) = false -> silent phi (find_tool W name).
Proof.
  intros Hl. unfold find_tool.
  apply silent_bind; [now apply silent_log|intros _].
  apply silent_bind; [apply silent_get_fs|intros f].
  assert (F : silent phi match which W name f with
                         | Some found => ret found
                         | None => fail ("Tool '" ++ name ++ "' not found in Hugin directory or PATH")
                         end).
  { destruct (which W name f); [apply silent_ret | apply silent_fail]. }
  destruct (HUGIN_BIN (system W)); [|exact F].
  destruct (Fs.exists_ f p); [|exact F].
  destruct (Fs.exists_ f _); [apply silent_ret | exact F].
Qed.

Lemma silent_relocate (W : world) (items : list path) : silent phi (relocate W items).
Proof.
  induction items as [|item rest IH]; cbn [relocate]; [apply silent_ret|].
  apply silent_bind; [apply silent_fs_op|intros _].
  apply silent_bind; [apply silent_get_fs|intros f].
  apply silent_bind; [apply silent_when, silent_fs_op|intros _].
  exact IH.
Qed.

End Silent.

Ltac hush :=
  repeat first
    [ apply silent_print; reflexivity
    | apply silent_ret | apply silent_get_fs | apply silent_fs_op | apply silent_raise
    | apply silent_fail; reflexivity
    | apply silent_unpack
    | apply silent_relocate
    | apply silent_run; reflexivity
    | apply silent_urlretrieve; reflexivity
    | apply silent_find_tool; reflexivity
    | apply silent_log; reflexivity
    | apply silent_when
    | match goal with
      | |- silent _ (if ?b then _ else _) => destruct b
      | |- silent _ (match ?x with _ => _ end) => destruct x
      end
    | apply silent_bind; [|intros ?] ].

Lemma locate_tools_starts_nothing (W : world) : silent is_run (locate_tools W).
Proof. unfold locate_tools. hush. Qed.

Lemma ensure_skyfill_starts_nothing (W : world) : silent is_run (ensure_skyfill W).
Proof. unfold ensure_skyfill. hush. Qed.

Lemma ensure_exiftool_starts_nothing (W : world) : silent is_run (ensure_exiftool W).
Proof. unfold ensure_exiftool. hush. Qed.

(** X6. Finding and fetching the tools starts no process: neither the tool
    lookups of step 2 nor the two fetchers run anything, not even what they
    have just downloaded. *)
Theorem acquisition_starts_no_process (W : world) (s : state) :
  runs (trace (snd (locate_tools W s))) = runs (trace s)
  /\ runs (trace (snd (ensure_skyfill W s))) = runs (trace s)
  /\ runs (trace (snd (ensure_exiftool W s))) = runs (trace s).
Proof.
  repeat split.
  - exact (locate_tools_starts_nothing W s _ _ (surjective_pairing _)).
  - exact (ensure_skyfill_starts_nothing W s _ _ (surjective_pairing _)).
  - exact (ensure_exiftool_starts_nothing W s _ _ (surjective_pairing _)).
Qed.

Lemma pipeline_silent (phi : event -> bool) (W : world) (image_dir : path) (TOOLS : tools)
    (skyfill exiftool : path) (debug_skip : bool) :
  (forall l, phi (EPrint l) = false) -> (forall c, phi (ERun c) = false) ->
  silent phi (pipeline W image_dir TOOLS skyfill exiftool debug_skip).
Proof.
  intros Hp Hr.
  pose proof (fun c => silent_run phi Hp W c (Hr c)) as Hrun.
  pose proof (silent_print phi Hp) as Hprint.
  pose proof (@silent_fail phi Hp unit) as Hfail.
  unfold pipeline, stitch_group, resize_group, skyfill_stage, metadata_stage, cleanup.
  repeat first
    [ apply Hrun | apply Hprint | apply Hfail
    | apply silent_ret | apply silent_get_fs | apply silent_fs_op | apply silent_when
    | match goal with |- silent _ (if ?b then _ else _) => destruct b end
    | apply silent_bind; [|intros ?] ].
Qed.

(** X7. The pipeline stages of steps 4 to 8 never touch the network and
    resolve no tool: every download and every lookup of a run happens
    before the first stage. *)
Theorem pipeline_stays_offline
    (W : world) (image_dir : path) (TOOLS : tools) (skyfill exiftool : path)
    (debug_skip : bool) (s : state) :
  downloads (trace (snd (pipeline W image_dir TOOLS skyfill exiftool debug_skip s)))
  = downloads (trace s)
  /\ lookups (trace (snd (pipeline W image_dir TOOLS skyfill exiftool debug_skip s)))
     = lookups (trace s).
Proof.
  split.
  - apply (pipeline_silent is_download W image_dir TOOLS skyfill exiftool debug_skip
             (fun _ => eq_refl) (fun _ => eq_refl) s _ _ (surjective_pairing _)).
  - apply (pipeline_silent is_lookup W image_dir TOOLS skyfill exiftool debug_skip
             (fun _ => eq_refl) (fun _ => eq_refl) s _ _ (surjective_pairing _)).
Qed.

(** ** The order of the commands *)

Ltac tidy_lhs :=
  match goal with
  | |- _ = ?rhs =>
      let R := fresh "R" in
      set (R := rhs);
      cbn [fs trace fst snd]; repeat rewrite runs_app; cbn [runs filter is_run];
      repeat rewrite app_nil_r; repeat rewrite <- app_assoc;
      subst R; reflexivity
  end.



(** ** Moving the sky-fill result *)

Lemma is_prefix_refl (p : path) : PathOps.is_prefix p p = true.
Proof. induction p as [|x p IH]; cbn; [reflexivity|]. now rewrite String.eqb_refl. Qed.

Lemma is_prefix_split (d q : path) :
  PathOps.is_prefix d q = true -> q = d ++ skipn (List.length d) q.
Proof.
  revert q. induction d as [|x d IH]; intros q H; [reflexivity|].
  destruct q as [|y q]; [discriminate H|]. cbn in H.
  apply andb_true_iff in H as [Hx Hd]. apply String.eqb_eq in Hx. subst y.
  cbn. f_equal. now apply IH.
Qed.

Lemma not_prefix_neq (d q : path) : PathOps.is_prefix d q = false -> q <> d.
Proof. intros H ->. now rewrite is_prefix_refl in H. Qed.

(** An entry lands on the target exactly when it was the source. *)
Lemma reroot_hits_target (src dst q : path) :
  q <> dst -> PathOps.eqb (Fs.reroot src dst q) dst = PathOps.eqb q src.
Proof.
  intros Hq. unfold Fs.reroot. destruct (PathOps.is_prefix src q) eqn:P.
  - pose proof (is_prefix_split _ _ P) as E.
    destruct (skipn (List.length src) q) as [|y l].
    + rewrite app_nil_r in *. subst q. now rewrite !path_eqb_refl.
    + transitivity false; [|symmetry]; apply path_eqb_neq.
      * intros A. rewrite <- (app_nil_r dst) in A at 2. now apply app_inv_head in A.
      * intros A. rewrite A in E. rewrite <- (app_nil_r src) in E at 1.
        now apply app_inv_head in E.
  - transitivity false; [|symmetry]; apply path_eqb_neq; [exact Hq|].
    now apply not_prefix_neq.
Qed.

Lemma reroot_misses_source (src dst q : path) :
  (forall rest, dst ++ rest <> src) -> PathOps.eqb (Fs.reroot src dst q) src = false.
Proof.
  intros Hd. unfold Fs.reroot. apply path_eqb_neq.
  destruct (PathOps.is_prefix src q) eqn:P; [apply Hd | now apply not_prefix_neq].
Qed.

Lemma find_after_move (src dst : path) (g : FS) :
  (forall e, In e g -> fst e <> dst) ->
  (forall rest, dst ++ rest <> src) ->
  option_map snd (find (fun e => PathOps.eqb (fst e) dst)
                       (map (fun e => (Fs.reroot src dst (fst e), snd e)) g))
  = option_map snd (find (fun e => PathOps.eqb (fst e) src) g)
  /\ find (fun e => PathOps.eqb (fst e) src)
          (map (fun e => (Fs.reroot src dst (fst e), snd e)) g) = None.
Proof.
  intros Hg Hd. induction g as [|[q m] g IH]; [split; reflexivity|].
  cbn [map find fst snd].
  rewrite reroot_hits_target by (apply (Hg (q, m)); now left).
  rewrite reroot_misses_source by exact Hd.
  destruct IH as [IH1 IH2]; [intros e He; apply Hg; now right|].
  split; [|exact IH2].
  destruct (PathOps.eqb q src); [reflexivity | exact IH1].
Qed.

(** [Path.rename] moves the entry: afterwards the target holds what the
    source held, and the source is gone. *)
Lemma rename_moves (windows : bool) (src dst : path) (f f' : FS) :
  src <> [] -> dst <> [] -> src <> dst -> (forall rest, dst ++ rest <> src) ->
  Fs.rename windows src dst f = Ok f' ->
  Fs.kind_of f' dst = Fs.kind_of f src /\ Fs.kind_of f' src = None.
Proof.
  intros Hs Hd Hne Hpre H.
  assert (K : forall g,
             (forall e, In e g -> fst e <> dst) ->
             Fs.kind_of (map (fun e => (Fs.reroot src dst (fst e), snd e)) g) dst
             = Fs.kind_of g src
             /\ Fs.kind_of (map (fun e => (Fs.reroot src dst (fst e), snd e)) g) src = None).
  { intros g Hg. destruct (find_after_move src dst g Hg Hpre) as [A B].
    unfold Fs.kind_of. destruct src as [|x src]; [contradiction|].
    destruct dst as [|y dst]; [contradiction|]. rewrite B. split; [exact A | reflexivity]. }
  assert (Absent : Fs.kind_of f dst = None -> forall e, In e f -> fst e <> dst).
  { unfold Fs.kind_of. destruct dst as [|y dst]; [contradiction|]. intros N e He A.
    destruct (find (fun e0 => PathOps.eqb (fst e0) (y :: dst)) f) eqn:F; [discriminate N|].
    apply (find_none _ _ F) in He. rewrite A, path_eqb_refl in He. discriminate He. }
  assert (Removed : forall e, In e (Fs.remove dst f) -> fst e <> dst).
  { intros e He A. apply filter_In in He as [_ He].
    rewrite A, path_eqb_refl in He. discriminate He. }
  assert (Kept : Fs.kind_of (Fs.remove dst f) src = Fs.kind_of f src).
  { apply kind_of_filter. intros e ->. now apply negb_true_iff, path_eqb_neq. }
  unfold Fs.rename in H.
  destruct (Fs.kind_of f src) as [k|] eqn:Ks; [|discriminate H].
  assert (E : PathOps.eqb src dst = false) by now apply path_eqb_neq.
  rewrite E in H.
  destruct (negb (Fs.is_dir f (PathOps.parent dst))); [discriminate H|].
  destruct (PathOps.is_prefix src dst); [discriminate H|].
  destruct (Fs.kind_of f dst) as [k'|] eqn:Kd.
  - destruct windows; [discriminate H|].
    destruct k, k'; try discriminate H.
    + injection H as <-. rewrite <- Kept. now apply K.
    + destruct (Fs.has_children dst f); [discriminate H|].
      injection H as <-. rewrite <- Kept. now apply K.
  - injection H as <-. rewrite <- Ks. apply K. now apply Absent.
Qed.

Lemma final_is_not_in_temp (image_dir : path) :
  final image_dir <> [] /\ skyfill_output <> final image_dir
  /\ forall rest, final image_dir ++ rest <> skyfill_output.
Proof. repeat split; discriminate. Qed.

(** X9. When the sky-fill stage succeeds, the image the tool wrote next to
    its input has been moved: output/<input-folder-name>_pano.jpg exists
    and temp/resized-filled.jpg does not. *)
Theorem skyfill_stage_moves_result
    (W : world) (image_dir skyfill : path) (s s' : state) :
  skyfill_stage W image_dir skyfill s = (Ok tt, s') ->
  Fs.exists_ (fs s') (final image_dir) = true
  /\ Fs.exists_ (fs s') skyfill_output = false
  /\ PathOps.name (final image_dir) = (PathOps.name image_dir ++ "_pano.jpg")%string.
Proof.
  intros H.
  unfold skyfill_stage, run, bind, get_fs, print, log, when, fail, fs_op, ret in H.
  cbn [fs trace] in H.
  destruct (exec W (skyfill_cmd skyfill) (fs s)) as [[] f1]; [|discriminate H].
  cbn [fs trace] in H.
  destruct (Fs.exists_ f1 skyfill_output) eqn:X; cbn [negb fs trace] in H; [|discriminate H].
  destruct (Fs.rename (windows W) skyfill_output (final image_dir) f1) as [f2|] eqn:R;
    [|discriminate H].
  injection H as <-. cbn [fs].
  destruct (final_is_not_in_temp image_dir) as (N1 & N2 & N3).
  apply rename_moves in R as [R1 R2]; try assumption; [|discriminate].
  unfold Fs.exists_ in *. rewrite R1, R2. repeat split.
  destruct (Fs.kind_of f1 skyfill_output); [reflexivity | discriminate X].
Qed.

Lemma skyfill_stage_moves_result_witness :
  fst (skyfill_stage linux_idle ["drone_shots"] (skyfill_exe linux) (start linux_fs_second_run))
  = Ok tt
  /\ Fs.exists_ (fs (snd (skyfill_stage linux_idle ["drone_shots"] (skyfill_exe linux)
                                        (start linux_fs_second_run))))
                skyfill_output = false.
Proof.
  split; [reflexivity|].
  destruct (skyfill_stage linux_idle ["drone_shots"] (skyfill_exe linux)
                          (start linux_fs_second_run))
    as [[[]|e] s'] eqn:E.
  - exact (proj1 (proj2 (skyfill_stage_moves_result linux_idle _ _ _ s' E))).
  - vm_compute in E. discriminate E.
Defined.



(** ** The name of the final image *)




(** ** The order of the lookups *)




(** ** A whole run *)

(** X13. A run of the whole script that succeeds leaves no temp/ behind,
    whatever the external programs did. *)
Theorem successful_run_leaves_no_temp
    (W : world) (images : path) (debug_skip : bool) (s s' : state) :
  main W images debug_skip s = (Ok tt, s') ->
  Fs.exists_ (fs s') TEMP_DIR = false
  /\ Fs.is_dir (fs s) images = true.
Proof.
  intros H. split; [exact (main_success_removes_temp W images debug_skip s s' H)|].
  unfold main, bind at 1, get_fs at 1 in H.
  destruct (Fs.is_dir (fs s) images); [reflexivity|].
  discriminate H.
Qed.

Lemma successful_run_leaves_no_temp_witness :
  Fs.exists_ (fs (snd (main linux ["drone_shots"] false (start linux_fs)))) TEMP_DIR = false.
Proof.
  destruct (main linux ["drone_shots"] false (start linux_fs)) as [[[]|e] s'] eqn:E.
  - exact (proj1 (successful_run_leaves_no_temp linux ["drone_shots"] false _ s' E)).
  - vm_compute in E. discriminate E.
Defined.

(** X14. The skip shortcut never covers the last stages.  In a resumed run
    with the skip flag, where temp/ and output/ are in place and both
    temp/stitched.tif and temp/resized.jpg exist, the sky-fill tool is
    started first and in any case; the metadata editor follows it, and
    these are all the processes of a run that succeeds. *)
Theorem resumed_run_starts_at_skyfill
    (W : world) (image_dir : path) (TOOLS : tools) (skyfill exiftool : path)
    (s : state) (r : result unit) (s' : state) :
  Fs.is_dir (fs s) TEMP_DIR = true ->
  Fs.is_dir (fs s) OUTPUT_DIR = true ->
  Fs.exists_ (fs s) stitched = true ->
  Fs.exists_ (fs s) resized = true ->
  pipeline W image_dir TOOLS skyfill exiftool true s = (r, s') ->
  exists started rest,
    runs (trace s') = runs (trace s) ++ ERun (skyfill_cmd skyfill) :: started
    /\ (started ++ rest = [ERun (exiftool_cmd image_dir exiftool)])%list
    /\ (succeeded r = true -> rest = []).
Proof.
  intros Ht Ho Hs Hr H.
  unfold pipeline, stitch_group, resize_group, skyfill_stage, metadata_stage, cleanup,
    run, bind, get_fs, print, log, when, fail, fs_op, ret in H.
  unfold Fs.mkdir in H. cbn [andb fs trace] in H.
  rewrite Ht in H. cbn [fs trace] in H. rewrite Ho in H. cbn [fs trace] in H.
  rewrite Hs in H. cbn [fs trace] in H. rewrite Hr in H. cbn [fs trace] in H.
  destruct (exec W (skyfill_cmd skyfill) (fs s)) as [[] f1]; cbn [fs trace] in H.
  2:{ injection H as <- <-. do 2 eexists.
      split; [tidy_lhs|]. split; [reflexivity | discriminate]. }
  destruct (Fs.exists_ f1 skyfill_output); cbn [negb fs trace] in H.
  2:{ injection H as <- <-. do 2 eexists.
      split; [tidy_lhs|]. split; [reflexivity | discriminate]. }
  destruct (Fs.rename (windows W) skyfill_output (final image_dir) f1) as [f2|?];
    cbn [fs trace] in H.
  2:{ injection H as <- <-. do 2 eexists.
      split; [tidy_lhs|]. split; [reflexivity | discriminate]. }
  destruct (exec W (exiftool_cmd image_dir exiftool) f2) as [[] f3]; cbn [fs trace] in H.
  2:{ injection H as <- <-. do 2 eexists.
      split; [tidy_lhs|]. split; [reflexivity | discriminate]. }
  destruct (Fs.rmtree TEMP_DIR f3) as [f4|?]; cbn [fs trace] in H;
    injection H as <- <-; do 2 eexists;
    (split; [tidy_lhs|]); (split; [reflexivity|]); reflexivity.
Qed.

Lemma resumed_run_starts_at_skyfill_witness :
  runs (trace (snd (pipeline linux ["drone_shots"] linux_tools (skyfill_exe linux)
                             (usr_bin // "exiftool") true (start linux_fs_resumed))))
  = [ERun (skyfill_cmd (skyfill_exe linux));
     ERun (exiftool_cmd ["drone_shots"] (usr_bin // "exiftool"))].
Proof.
  destruct (resumed_run_starts_at_skyfill linux ["drone_shots"] linux_tools (skyfill_exe linux)
              (usr_bin // "exiftool") (start linux_fs_resumed) _ _
              eq_refl eq_refl eq_refl eq_refl (surjective_pairing _))
    as (started & rest & H1 & H2 & H3).
  rewrite H1. cbn [start trace runs filter app]. f_equal.
  rewrite <- H2, (H3 eq_refl). symmetry. apply app_nil_r.
Defined.

(** ** The metadata-editor fetcher after a download *)

Lemma fold_mkdir_ancestor_err (l : list path) (e : error) :
  fold_left Fs.mkdir_ancestor l (Err e) = Err e.
Proof. induction l as [|a l IH]; [reflexivity | exact IH]. Qed.

Lemma fold_mkdir_ancestor_keeps (l : list path) (f f' : FS) (q : path) :
  fold_left Fs.mkdir_ancestor l (Ok f) = Ok f' ->
  Fs.exists_ f q = true -> Fs.exists_ f' q = true.
Proof.
  revert f. induction l as [|a l IH]; intros f H X; cbn [fold_left] in H.
  - now injection H as <-.
  - unfold Fs.mkdir_ancestor at 2 in H.
    destruct (Fs.is_dir f a); [now apply (IH f)|].
    destruct (Fs.exists_ f a).
    + now rewrite fold_mkdir_ancestor_err in H.
    + apply (IH _ H). now apply exists_put.
Qed.

Lemma mkdir_makes (p : path) (f f' : FS) :
  p <> [] -> Fs.mkdir false true p f = Ok f' -> Fs.exists_ f' p = true.
Proof.
  intros Hp. unfold Fs.mkdir, Fs.mkdir1.
  destruct (Fs.is_dir f p) eqn:D; [intros E; injection E as <-; now apply is_dir_exists|].
  destruct (Fs.exists_ f p); [discriminate|].
  destruct (Fs.is_dir f (PathOps.parent p)).
  - intros E; injection E as <-. unfold Fs.exists_. now rewrite kind_of_put_same.
  - destruct (Fs.exists_ f (PathOps.parent p)); discriminate.
Qed.

Lemma extract_entry_keeps (dir : path) (f f' : FS) (e : path * node) (q : path) :
  Fs.extract_entry dir (Ok f) e = Ok f' ->
  Fs.exists_ f q = true -> Fs.exists_ f' q = true.
Proof.
  unfold Fs.extract_entry. destruct e as [[|x rel] k]; cbn [fst snd].
  - intros E X. now injection E as <-.
  - destruct (fold_left Fs.mkdir_ancestor _ (Ok f)) as [f1|] eqn:A; [|discriminate].
    intros E X. pose proof (fold_mkdir_ancestor_keeps _ _ _ q A X) as X1.
    destruct k as [b|].
    + destruct (Fs.is_dir f1 _); [discriminate E|]. injection E as <-. now apply exists_put.
    + eapply mkdir_keeps_exists; eassumption.
Qed.

Lemma extract_entry_makes (dir : path) (f f' : FS) (e : path * node) :
  fst e <> [] ->
  Fs.extract_entry dir (Ok f) e = Ok f' -> Fs.exists_ f' (dir ++ fst e) = true.
Proof.
  unfold Fs.extract_entry. destruct e as [[|x rel] k]; cbn [fst snd]; [contradiction|].
  intros _.
  assert (N : dir ++ x :: rel <> []) by (destruct dir; discriminate).
  destruct (fold_left Fs.mkdir_ancestor _ (Ok f)) as [f1|]; [|discriminate].
  destruct k as [b|].
  - destruct (Fs.is_dir f1 _); [discriminate|]. intros E. injection E as <-.
    unfold Fs.exists_. now rewrite kind_of_put_same.
  - now apply mkdir_makes.
Qed.

Lemma fold_extract_err (dir : path) (l : list (path * node)) (e : error) :
  fold_left (Fs.extract_entry dir) l (Err e) = Err e.
Proof. induction l as [|a l IH]; [reflexivity | exact IH]. Qed.

(** Every member of an archive that was unpacked without an error is
    there afterwards. *)
Lemma extractall_makes (dir : path) (l : list (path * node)) (f f' : FS) (e : path * node) :
  Fs.extractall dir l f = Ok f' -> In e l -> fst e <> [] ->
  Fs.exists_ f' (dir ++ fst e) = true.
Proof.
  unfold Fs.extractall.
  assert (Keeps : forall l' g g' q,
             fold_left (Fs.extract_entry dir) l' (Ok g) = Ok g' ->
             Fs.exists_ g q = true -> Fs.exists_ g' q = true).
  { induction l' as [|a l' IH]; intros g g' q H X; cbn [fold_left] in H.
    - now injection H as <-.
    - destruct (Fs.extract_entry dir (Ok g) a) as [g1|] eqn:A.
      + apply (IH _ _ _ H). eapply extract_entry_keeps; eassumption.
      + now rewrite fold_extract_err in H. }
  revert f. induction l as [|a l IH]; intros f H He Hn; [contradiction|].
  cbn [fold_left] in H.
  destruct (Fs.extract_entry dir (Ok f) a) as [f1|] eqn:A.
  2:{ now rewrite fold_extract_err in H. }
  destruct He as [->|He].
  - apply (Keeps _ _ _ _ H). eapply extract_entry_makes; [exact Hn | exact A].
  - now apply (IH f1).
Qed.

(** X15. On Windows, when the downloaded archive holds exiftool(-k).exe at
    its top level, a fetch that ends well returns
    tools/exiftool/exiftool.exe and that file exists: the executable has
    been renamed, and exiftool(-k).exe is gone. *)
Theorem exiftool_fetcher_renames_top_level_executable
    (W : world) (entries : list (path * node)) (k : node) (s : state) (p : path) (s' : state) :
  windows W = true ->
  Fs.exists_ (fs s) exiftool_exe = false ->
  fetch W EXIFTOOL_URL = Archive entries ->
  In (["exiftool(-k).exe"], k) entries ->
  ensure_exiftool W s = (Ok p, s') ->
  p = exiftool_exe
  /\ Fs.exists_ (fs s') exiftool_exe = true
  /\ Fs.exists_ (fs s') (exiftool_dir // "exiftool(-k).exe") = false.
Proof.
  intros Hw Habs Hfetch Hin H. unfold ensure_exiftool in H. rewrite Hw in H.
  unfold bind at 1 in H. unfold get_fs at 1 in H. rewrite Habs in H.
  apply bind_inv in H as [(u1 & s1 & _ & H)|(? & _ & N)]; [|discriminate N].
  apply bind_inv in H as [(u2 & s2 & _ & H)|(? & _ & N)]; [|discriminate N].
  apply bind_inv in H as [(c & s3 & G3 & H)|(? & _ & N)]; [|discriminate N].
  apply urlretrieve_ok in G3 as (_ & _ & C3).
  destruct c as [entries'|]; rewrite Hfetch in C3; [|discriminate C3].
  injection C3 as <-.
  apply bind_inv in H as [(u4 & s4 & G4 & H)|(? & _ & N)]; [|discriminate N].
  injection G4 as _ <-.
  apply bind_inv in H as [(u5 & s5 & G5 & H)|(? & _ & N)]; [|discriminate N].
  injection G5 as _ <-. cbn [fs trace] in H.
  apply bind_inv in H as [(u6 & s6 & G6 & H)|(? & _ & N)]; [|discriminate N].
  apply unpack_ok in G6 as (en & E6 & X6 & _). injection E6 as <-. cbn [fs] in X6.
  apply (extractall_makes _ _ _ _ _ X6) in Hin; [|discriminate]. cbn [fst] in Hin.
  apply bind_inv in H as [(u7 & s7 & G7 & H)|(? & _ & N)]; [|discriminate N].
  apply fs_op_ok in G7 as [G7 _].
  assert (T : Fs.exists_ (fs s7) (exiftool_dir // "exiftool(-k).exe") = true).
  { unfold Fs.unlink in G7.
    destruct (Fs.kind_of (fs s6) (exiftool_dir // "exiftool.zip")) as [[]|]; try discriminate G7.
    injection G7 as G7. rewrite <- G7. unfold Fs.exists_, Fs.remove.
    rewrite kind_of_filter; [exact Hin|]. intros e ->. reflexivity. }
  apply bind_inv in H as [(f8 & s8 & G8 & H)|(? & _ & N)]; [|discriminate N].
  injection G8 as <- <-. rewrite T in H.
  apply bind_inv in H as [(u9 & s9 & G9 & H)|(? & _ & N)]; [|discriminate N].
  injection H as <- <-.
  apply fs_op_ok in G9 as [G9 _].
  apply rename_moves in G9 as [R1 R2]; try discriminate.
  unfold Fs.exists_ in *. rewrite R1, R2. repeat split.
  destruct (Fs.kind_of (fs s7) (exiftool_dir // "exiftool(-k).exe"));
    [reflexivity | discriminate T].
Qed.

Lemma exiftool_fetcher_renames_top_level_executable_witness :
  windows windows_flat_pc = true /\
  fetch windows_flat_pc EXIFTOOL_URL = Archive flat_release /\
  Fs.exists_ (fs (snd (ensure_exiftool windows_flat_pc (start windows_fs_fresh)))) exiftool_exe
  = true.
Proof.
  split; [reflexivity|]. split; [reflexivity|].
  destruct (ensure_exiftool windows_flat_pc (start windows_fs_fresh)) as [[p|e] s'] eqn:E.
  - exact (proj1 (proj2 (exiftool_fetcher_renames_top_level_executable windows_flat_pc
                           flat_release (File false) (start windows_fs_fresh) p s'
                           eq_refl eq_refl eq_refl (or_introl eq_refl) E))).
  - vm_compute in E. discriminate E.
Defined.
